(** * Business-viability pipeline of the agent-demos repository

    Shallow embedding of the calculation tools used by the agents:
    - [etsyFeesCalculator]            (src/02-multi-agent/lib/util.ts)
    - [calculateMaterialCosts]        (materialCosts; src/01-single-agent/README.md)
    - [analyzeBusinessCosts]          (costAnalysis; src/unnamed/part_002)
    - [estimateSalesVolume]           (src/02-multi-agent/lib/tools/salesEstimation.ts)
    - [suggestAdvertisingPlatforms]   (src/02-multi-agent/lib/tools/advertising.ts)
    - [researchCompetitorPrices]      (src/02-multi-agent/lib/tools/marketResearch.ts)
    - [generateBusinessPlan]          (src/02-multi-agent/lib/tools/businessPlan.ts)

    JavaScript numbers are modelled as exact rationals [Q]; the IEEE
    special values (NaN, infinities, -0) are not modelled, except where the
    source divides by a quantity that can be zero (break-even units), which
    uses [extZ] below. [Math.round x] is [floor (x + 1/2)], as in JS.
    Free-text outputs (insights, recommendations) are modelled only where a
    claim is about them, as an enumeration of their templates. *)

From Stdlib Require Import QArith Qround Qabs Qminmax ZArith String Ascii List Bool Lia Lqa Permutation.
Import ListNotations.
Open Scope string_scope.
Open Scope Q_scope.

(** ** JavaScript helpers *)

(** [Math.round] : half-way cases go towards +infinity. *)
Definition Math_round (x : Q) : Z := Qfloor (x + (1 # 2)).

(** [Math.round(x * 100) / 100], the cents rounding used throughout. *)
Definition round2 (x : Q) : Q := inject_Z (Math_round (x * 100)) / 100.

(** [Math.ceil]. *)
Definition Math_ceil (x : Q) : Z := Qceiling x.

(** [String.prototype.toLowerCase], on ASCII letters. *)
Definition lower_ascii (c : ascii) : ascii :=
  let n := nat_of_ascii c in
  if (65 <=? n)%nat && (n <=? 90)%nat then ascii_of_nat (n + 32) else c.

Fixpoint toLowerCase (s : string) : string :=
  match s with
  | EmptyString => EmptyString
  | String c s' => String (lower_ascii c) (toLowerCase s')
  end.

(** [String.prototype.includes]. *)
Fixpoint includes (s sub : string) : bool :=
  prefix sub s ||
  match s with
  | EmptyString => false
  | String _ s' => includes s' sub
  end.

(** Strict comparison [x < y] on numbers. *)
Definition Qlt_bool (x y : Q) : bool := negb (Qle_bool y x).

(** JS truthiness of an optional number used with [x || d]: [undefined]
    and [0] are falsy. *)
Definition or_default (x : option Q) (d : Q) : Q :=
  match x with
  | Some v => if Qeq_bool v 0 then d else v
  | None => d
  end.

(** ** FeeCalculator: [etsyFeesCalculator] *)

Record EtsyFees := mkEtsyFees {
  listingFee : Q;
  transactionFee : Q;
  paymentProcessingFee : Q;
  offsiteAdsFee : Q
}.

(** [offsiteAds : boolean | null]: [None] is [null]. *)
Definition etsyFeesCalculator (itemPrice : Q) (offsiteAds : option bool) : EtsyFees :=
  let listingFee := 0.2 in
  let transactionFeeRate := 0.065 in
  let paymentProcessingFeeRate := 0.03 in
  let paymentProcessingFixedFee := 0.25 in
  let offsiteAdsFeeRate :=
    match offsiteAds with Some true => 0.12 | _ => 0 end in
  let transactionFee := itemPrice * transactionFeeRate in
  let paymentProcessingFee :=
    itemPrice * paymentProcessingFeeRate + paymentProcessingFixedFee in
  let offsiteAdsFee := itemPrice * offsiteAdsFeeRate in
  mkEtsyFees listingFee transactionFee paymentProcessingFee offsiteAdsFee.

(** ** MaterialCostEngine: [calculateMaterialCosts] *)

Record Material := mkMaterial {
  m_name : string;
  m_quantity : Q;
  m_unit : string;
  m_preferredSupplier : option string
}.

Record PriceInfo := mkPriceInfo {
  pi_pricePerUnit : Q;
  pi_supplier : string;
  pi_bulkOption : option (Q * Q);               (* bulkQuantity, bulkPrice *)
  pi_alternatives : option (list (string * Q))  (* supplier, pricePerUnit *)
}.

Record BulkOption := mkBulkOption {
  bulkQuantity : Q;
  bulkPrice : Q;
  savingsPerUnit : Q
}.

Record AlternativeSupplier := mkAlternativeSupplier {
  alt_supplier : string;
  alt_pricePerUnit : Q;
  alt_savings : Q
}.

Record MaterialCostDetail := mkMaterialCostDetail {
  d_name : string;
  d_quantity : Q;
  d_unit : string;
  d_pricePerUnit : Q;
  d_totalCost : Q;
  d_supplier : string;
  d_bulkOption : option BulkOption;
  d_alternativeSuppliers : option (list AlternativeSupplier)
}.

(** The three recommendation templates of [calculateMaterialCosts]. *)
Inductive MaterialRecommendation :=
| RecBulk (potentialSavings : Q) (count : nat)
    (* "You could save $... by buying ... material(s) in bulk" *)
| RecAlternatives (names : list string)
    (* "Consider checking alternative suppliers for ... to potentially reduce costs" *)
| RecHighCost.
    (* "With material costs over $50 per item, ..." *)

Record MaterialCostsResult := mkMaterialCostsResult {
  mc_materials : list MaterialCostDetail;
  mc_totalCost : Q;
  mc_potentialSavings : Q;
  mc_recommendations : list MaterialRecommendation
}.

Definition pi (p : Q) (s : string) b a := mkPriceInfo p s b a.

(** [mockPriceDatabase], in the order of its keys. *)
Definition mockPriceDatabase : list (string * PriceInfo) := [
  ("fabric", pi 8.99 "Joann Fabrics" (Some (10, 7.49))
               (Some [("Fabric.com", 9.5); ("Amazon", 8.25)]));
  ("cotton", pi 6.5 "Michaels" (Some (5, 5.75)) None);
  ("thread", pi 3.99 "Joann Fabrics" (Some (6, 3.25)) None);
  ("yarn", pi 7.99 "Michaels" (Some (8, 6.99)) (Some [("Hobby Lobby", 7.49)]));
  ("wool", pi 12.99 "Knit Picks" (Some (5, 11.5)) None);
  ("beads", pi 0.15 "Fire Mountain Gems" (Some (100, 0.1)) (Some [("Amazon", 0.18)]));
  ("wire", pi 9.99 "Fire Mountain Gems" (Some (5, 8.5)) None);
  ("clasp", pi 0.5 "Fire Mountain Gems" (Some (50, 0.35)) None);
  ("wood", pi 4.99 "Home Depot" (Some (10, 4.25)) None);
  ("paint", pi 5.99 "Michaels" None (Some [("Blick Art", 6.5)]));
  ("glue", pi 4.5 "Michaels" (Some (4, 3.99)) None);
  ("paper", pi 0.25 "Paper Source" (Some (100, 0.18)) None);
  ("cardstock", pi 0.35 "Michaels" (Some (50, 0.28)) None);
  ("wax", pi 2.5 "CandleScience" (Some (10, 2.1)) None);
  ("wick", pi 0.5 "CandleScience" (Some (50, 0.35)) None);
  ("fragrance oil", pi 15.99 "CandleScience" (Some (3, 13.99)) None);
  ("soap base", pi 3.99 "Bramble Berry" (Some (10, 3.25)) None);
  ("essential oil", pi 12.99 "Bramble Berry" None None);
  ("clay", pi 18.99 "Blick Art" (Some (5, 16.5)) None);
  ("glaze", pi 14.99 "Blick Art" None None);
  ("resin", pi 35.99 "Amazon" (Some (3, 31.99)) None);
  ("resin dye", pi 8.99 "Amazon" None None)
].

(** [Object.keys(mockPriceDatabase).find(key => key.toLowerCase() === name.toLowerCase())],
    returning the entry of the key found. *)
Definition lookupPrice (name : string) : option PriceInfo :=
  match find (fun kv => String.eqb (toLowerCase (fst kv)) (toLowerCase name))
              mockPriceDatabase with
  | Some (_, info) => Some info
  | None => None
  end.

Definition defaultPriceInfo : PriceInfo := pi 5.0 "Generic Supplier" None None.

(** The per-material callback of [materials.map(...)]. *)
Definition materialDetail (material : Material) : MaterialCostDetail :=
  let priceInfo0 :=
    match lookupPrice (m_name material) with
    | Some info => info
    | None => defaultPriceInfo
    end in
  (* [if (material.preferredSupplier)]: the empty string is falsy *)
  let priceInfo :=
    match m_preferredSupplier material with
    | Some s => if String.eqb s EmptyString then priceInfo0
                else mkPriceInfo (pi_pricePerUnit priceInfo0) s
                       (pi_bulkOption priceInfo0) (pi_alternatives priceInfo0)
    | None => priceInfo0
    end in
  let totalCost := pi_pricePerUnit priceInfo * m_quantity material in
  let bulk :=
    match pi_bulkOption priceInfo with
    | Some (bq, bp) =>
        Some (mkBulkOption bq bp (round2 (pi_pricePerUnit priceInfo - bp)))
    | None => None
    end in
  let alts :=
    match pi_alternatives priceInfo with
    | Some l =>
        Some (map (fun a => mkAlternativeSupplier (fst a) (snd a)
                              (round2 (pi_pricePerUnit priceInfo - snd a))) l)
    | None => None
    end in
  mkMaterialCostDetail (m_name material) (m_quantity material) (m_unit material)
    (pi_pricePerUnit priceInfo) (round2 totalCost) (pi_supplier priceInfo)
    bulk alts.

(** [m.bulkOption && m.quantity >= m.bulkOption.bulkQuantity] *)
Definition bulkEligibleb (m : MaterialCostDetail) : bool :=
  match d_bulkOption m with
  | Some b => Qle_bool (bulkQuantity b) (d_quantity m)
  | None => false
  end.

(** [m.alternativeSuppliers && m.alternativeSuppliers.some(a => a.savings < 0)] *)
Definition cheaperAlternativeb (m : MaterialCostDetail) : bool :=
  match d_alternativeSuppliers m with
  | Some l => existsb (fun a => Qlt_bool (alt_savings a) 0) l
  | None => false
  end.

Definition calculateMaterialCosts (materials : list Material) : MaterialCostsResult :=
  let details := map materialDetail materials in
  let totalCost := fold_left (fun sum m => sum + d_totalCost m) details 0 in
  let potentialSavings :=
    fold_left (fun sum m =>
      match d_bulkOption m with
      | Some b => if Qle_bool (bulkQuantity b) (d_quantity m)
                  then sum + savingsPerUnit b * d_quantity m else sum
      | None => sum
      end) details 0 in
  let bulkEligible := filter bulkEligibleb details in
  let r1 := if (0 <? length bulkEligible)%nat
            then [RecBulk (round2 potentialSavings) (length bulkEligible)] else [] in
  let cheaperAlternatives := filter cheaperAlternativeb details in
  let r2 := if (0 <? length cheaperAlternatives)%nat
            then [RecAlternatives (map d_name cheaperAlternatives)] else [] in
  let r3 := if Qlt_bool 50 totalCost then [RecHighCost] else [] in
  mkMaterialCostsResult details (round2 totalCost) (round2 potentialSavings)
    (r1 ++ r2 ++ r3).

(** ** CostAnalyzer: [analyzeBusinessCosts] *)

Inductive Frequency := monthly | annual | one_time.

Record FixedCost := mkFixedCost {
  fc_name : string;
  fc_amount : Q;
  fc_frequency : Frequency
}.

Record VariableCosts := mkVariableCosts {
  vc_materials : Q;
  vc_etsyFees : Q;
  vc_shipping : option Q;
  vc_labor : option Q;
  vc_packaging : option Q
}.

Record ProfitProjection := mkProfitProjection {
  salesVolume : Q;
  revenue : Q;
  totalFixedCosts : Q;
  totalVariableCosts : Q;
  totalCosts : Q;
  grossProfit : Q;
  netProfit : Q;
  profitMargin : Q
}.

(** A JS number produced by [Math.ceil(a / b)]: an integer, or one of the
    IEEE results of a division by zero ([a/0] is +/-Infinity, [0/0] is NaN). *)
Inductive extZ := Zfin (z : Z) | Zinf | Zneginf | Znan.

(** [x > y] with [x] such a number and [y] an integer. *)
Definition extZ_gtb (x : extZ) (y : Z) : bool :=
  match x with
  | Zfin z => (y <? z)%Z
  | Zinf => true
  | Zneginf | Znan => false
  end.

(** [Math.ceil(a / b)]. *)
Definition ceil_div (a b : Q) : extZ :=
  if Qeq_bool b 0 then
    (if Qlt_bool 0 a then Zinf else if Qlt_bool a 0 then Zneginf else Znan)
  else Zfin (Math_ceil (a / b)).

Record CostAnalysisResult := mkCostAnalysisResult {
  ca_sellingPrice : Q;
  ca_variableCostPerItem : Q;
  ca_contributionMargin : Q;
  ca_contributionMarginPercent : Q;
  ca_monthlyFixedCosts : Q;
  ca_breakEvenUnits : extZ;
  ca_projections : list ProfitProjection
}.

(** The [fixedCosts.reduce(...)] callback: annual and one-time costs are
    both divided by 12. *)
Definition addFixedCost (sum : Q) (cost : FixedCost) : Q :=
  match fc_frequency cost with
  | monthly => sum + fc_amount cost
  | annual => sum + fc_amount cost / 12
  | one_time => sum + fc_amount cost / 12
  end.

Definition monthlyFixedCostsOf (fixedCosts : list FixedCost) : Q :=
  fold_left addFixedCost fixedCosts 0.

Definition variableCostPerItemOf (v : VariableCosts) : Q :=
  vc_materials v + vc_etsyFees v + or_default (vc_shipping v) 0
  + or_default (vc_labor v) 0 + or_default (vc_packaging v) 0.

Definition projection (sellingPrice variableCostPerItem monthlyFixedCosts volume : Q)
  : ProfitProjection :=
  let revenue := volume * sellingPrice in
  let totalVariableCosts := volume * variableCostPerItem in
  let totalCosts := monthlyFixedCosts + totalVariableCosts in
  let grossProfit := revenue - totalVariableCosts in
  let netProfit := grossProfit - monthlyFixedCosts in
  let profitMargin := if Qlt_bool 0 revenue then netProfit / revenue * 100 else 0 in
  mkProfitProjection volume (round2 revenue) (round2 monthlyFixedCosts)
    (round2 totalVariableCosts) (round2 totalCosts) (round2 grossProfit)
    (round2 netProfit) (round2 profitMargin).

(** The numeric part of [analyzeBusinessCosts]; its textual
    recommendations are not modelled. *)
Definition analyzeBusinessCosts (fixedCosts : list FixedCost) (variableCosts : VariableCosts)
  (sellingPrice : Q) (salesVolumes : list Q) : CostAnalysisResult :=
  let monthlyFixedCosts := monthlyFixedCostsOf fixedCosts in
  let variableCostPerItem := variableCostPerItemOf variableCosts in
  let contributionMargin := sellingPrice - variableCostPerItem in
  let contributionMarginPercent := contributionMargin / sellingPrice * 100 in
  let breakEvenUnits := ceil_div monthlyFixedCosts contributionMargin in
  let projections :=
    map (projection sellingPrice variableCostPerItem monthlyFixedCosts) salesVolumes in
  mkCostAnalysisResult (round2 sellingPrice) (round2 variableCostPerItem)
    (round2 contributionMargin) (round2 contributionMarginPercent)
    (round2 monthlyFixedCosts) breakEvenUnits projections.

(** ** SalesEstimator: [estimateSalesVolume] *)

Inductive Scenario := conservative | moderate | optimistic.

Definition Scenario_eqb (a b : Scenario) : bool :=
  match a, b with
  | conservative, conservative | moderate, moderate | optimistic, optimistic => true
  | _, _ => false
  end.

Record SalesEstimate := mkSalesEstimate {
  scenario : Scenario;
  monthlySales : Z;
  quarterlySales : Z;
  annualSales : Z;
  monthlyRevenue : Q;
  quarterlyRevenue : Q;
  annualRevenue : Q
}.

Definition marketingMultiplier (marketingBudget : Q) : Q :=
  1 + (marketingBudget / 200) * 0.5.

Definition salesEstimate (sc : Scenario) (base : Z) (competitorPrice : Q) : SalesEstimate :=
  mkSalesEstimate sc base (base * 3) (base * 12)
    (round2 (inject_Z base * competitorPrice))
    (round2 (inject_Z (base * 3) * competitorPrice))
    (round2 (inject_Z (base * 12) * competitorPrice)).

(** The estimates of [estimateSalesVolume]; [marketingBudget = 0] is the
    parameter default, so an absent budget is [None]. *)
Definition estimateSalesVolume (competitorPrice : Q) (isNewShop : bool)
  (marketingBudget : option Q) : list SalesEstimate :=
  let mb := match marketingBudget with Some b => b | None => 0 end in
  let baseConservative0 : Z := (if isNewShop then 5 else 15)%Z in
  let baseModerate0 : Z := (if isNewShop then 15 else 40)%Z in
  let baseOptimistic0 : Z := (if isNewShop then 30 else 80)%Z in
  let m := marketingMultiplier mb in
  let baseConservative := Math_round (inject_Z baseConservative0 * m) in
  let baseModerate := Math_round (inject_Z baseModerate0 * m) in
  let baseOptimistic := Math_round (inject_Z baseOptimistic0 * m) in
  [salesEstimate conservative baseConservative competitorPrice;
   salesEstimate moderate baseModerate competitorPrice;
   salesEstimate optimistic baseOptimistic competitorPrice].

(** ** AdvertisingAllocator: [suggestAdvertisingPlatforms] *)

Record AdvertisingPlatform := mkAdvertisingPlatform {
  ap_name : string;
  ap_typicalCPC : option Q;
  ap_typicalCPM : option Q;
  ap_minimumBudget : Q;
  ap_recommendedBudget : Q
}.

(** The keys of the [allPlatforms] table. *)
Inductive PlatformKey := etsyAds | googleAds | facebookInstagram | pinterest | tiktok.

(** [allPlatforms[key]] (descriptive text fields omitted). *)
Definition allPlatforms (k : PlatformKey) : AdvertisingPlatform :=
  match k with
  | etsyAds => mkAdvertisingPlatform "Etsy Ads" (Some 0.25) None 1 50
  | googleAds => mkAdvertisingPlatform "Google Ads" (Some 1.5) (Some 4.0) 10 150
  | facebookInstagram =>
      mkAdvertisingPlatform "Facebook & Instagram Ads" (Some 0.8) (Some 8.0) 5 100
  | pinterest => mkAdvertisingPlatform "Pinterest Ads" (Some 0.6) (Some 5.0) 10 75
  | tiktok => mkAdvertisingPlatform "TikTok Ads" (Some 1.0) (Some 10.0) 50 150
  end.

Record BudgetAllocation := mkBudgetAllocation {
  ba_platform : string;
  ba_allocatedBudget : Q;
  ba_percentage : Z;
  ba_estimatedClicks : option Z;
  ba_estimatedImpressions : option Z
}.

Record AdvertisingResult := mkAdvertisingResult {
  ad_productCategory : string;
  ad_totalBudget : Q;
  ad_recommendedPlatforms : list AdvertisingPlatform;
  ad_budgetAllocation : list BudgetAllocation
}.

(** [recommendedPlatformNames]: Etsy Ads first, then two platforms chosen
    by the keywords of the lower-cased category. *)
Definition recommendedPlatformNames (productCategory : string) : list PlatformKey :=
  let c := toLowerCase productCategory in
  etsyAds ::
  (if includes c "jewelry" || includes c "fashion" || includes c "clothing"
      || includes c "accessories" then [facebookInstagram; pinterest]
   else if includes c "home" || includes c "decor" || includes c "furniture"
      || includes c "art" then [pinterest; facebookInstagram]
   else if includes c "craft" || includes c "diy" || includes c "supplies"
   then [pinterest; googleAds]
   else if includes c "toy" || includes c "game" || includes c "kids"
   then [facebookInstagram; googleAds]
   else [facebookInstagram; googleAds]).

Definition notEtsyAds (p : AdvertisingPlatform) : bool :=
  negb (String.eqb (ap_name p) "Etsy Ads").

(** An external platform's allocation, with its click and impression
    estimates ([p.typicalCPC ? ... : undefined]). *)
Definition externalAllocation (p : AdvertisingPlatform) (allocated : Q) (percentage : Z)
  : BudgetAllocation :=
  mkBudgetAllocation (ap_name p) allocated percentage
    (option_map (fun cpc => Math_round (allocated / cpc)) (ap_typicalCPC p))
    (option_map (fun cpm => Math_round (allocated / cpm * 1000)) (ap_typicalCPM p)).

Definition budgetAllocationOf (recommendedPlatforms : list AdvertisingPlatform)
  (monthlyBudget : Q) : list BudgetAllocation :=
  if Qlt_bool monthlyBudget 50 then
    [mkBudgetAllocation "Etsy Ads" monthlyBudget 100
       (Some (Math_round (monthlyBudget / 0.25))) None]
  else if Qlt_bool monthlyBudget 150 then
    mkBudgetAllocation "Etsy Ads" (round2 (monthlyBudget * 0.6)) 60
      (Some (Math_round (monthlyBudget * 0.6 / 0.25))) None ::
    match find notEtsyAds recommendedPlatforms with
    | Some secondPlatform =>
        [externalAllocation secondPlatform (round2 (monthlyBudget * 0.4)) 40]
    | None => []
    end
  else
    let etsyBudget := round2 (monthlyBudget * 0.4) in
    let otherPlatforms := filter notEtsyAds recommendedPlatforms in
    let remainingBudget := monthlyBudget - etsyBudget in
    let n := inject_Z (Z.of_nat (length otherPlatforms)) in
    let perPlatformBudget := remainingBudget / n in
    let perPlatformPercentage := 60 / n in
    mkBudgetAllocation "Etsy Ads" etsyBudget 40
      (Some (Math_round (etsyBudget / 0.25))) None ::
    map (fun p => externalAllocation p (round2 perPlatformBudget)
                    (Math_round perPlatformPercentage)) otherPlatforms.

(** The platform selection and budget split of [suggestAdvertisingPlatforms];
    its textual recommendations and ROI estimate are not modelled. *)
Definition suggestAdvertisingPlatforms (productCategory : string) (monthlyBudget : Q)
  : AdvertisingResult :=
  let affordablePlatforms :=
    filter (fun p => Qle_bool (ap_minimumBudget p) monthlyBudget)
      (map allPlatforms (recommendedPlatformNames productCategory)) in
  let recommendedPlatforms :=
    match affordablePlatforms with
    | [] => [allPlatforms etsyAds]
    | _ => affordablePlatforms
    end in
  mkAdvertisingResult productCategory monthlyBudget recommendedPlatforms
    (budgetAllocationOf recommendedPlatforms monthlyBudget).

(** Sum of the [percentage] fields of an allocation. *)
Definition percentageSum (l : list BudgetAllocation) : Z :=
  fold_right (fun a s => (ba_percentage a + s)%Z) 0%Z l.

(** ** Market research: the suggested mid price of [researchCompetitorPrices] *)

(** Prices of [mockListings], in order. *)
Definition mockListingPrices : list Q :=
  [29.99; 35.0; 24.5; 32.0; 39.99; 27.5; 31.0; 28.99; 33.5; 45.0].

(** [suggestedPrice.mid = Math.round(average * 100) / 100] over the first
    [numberOfListings] listings. *)
Definition suggestedPriceMid (numberOfListings : nat) : Q :=
  let prices := firstn numberOfListings mockListingPrices in
  let average := fold_left Qplus prices 0 / inject_Z (Z.of_nat (length prices)) in
  round2 average.

(** ** PlanOrchestrator: [generateBusinessPlan] *)

Record BusinessPlanInput := mkBusinessPlanInput {
  productName : string;
  productDescription : option string;
  productCategory : string;
  bp_materials : list Material;
  bp_fixedCosts : list FixedCost;
  bp_etsyFees : EtsyFees;
  isNewShop : bool;
  targetMonthlyIncome : option Q;
  marketingBudget : option Q;
  shippingCostPerItem : option Q;
  laborCostPerItem : option Q;
  packagingCostPerItem : option Q
}.

Inductive Viability := Low | Moderate | High.

Record BusinessPlanResult := mkBusinessPlanResult {
  recommendedPrice : Q;
  summaryBreakEvenUnits : extZ;
  estimatedMonthlySales : Z;
  estimatedMonthlyProfit : Q;
  viabilityScore : Viability;
  materialCosts : MaterialCostsResult;
  costAnalysis : CostAnalysisResult;
  salesEstimates : list SalesEstimate;
  advertisingPlan : AdvertisingResult
}.

(** [array.reduce(f)] without an initial value: a TypeError ([None]) on
    an empty array. *)
Definition reduce1 {A} (f : A -> A -> A) (l : list A) : option A :=
  match l with
  | [] => None
  | x :: xs => Some (fold_left f xs x)
  end.

Definition distance (p : ProfitProjection) (target : Z) : Q :=
  Qabs (salesVolume p - inject_Z target).

(** The callback choosing the projection closest to the moderate estimate;
    on a tie the earlier one is kept. *)
Definition closer (target : Z) (prev curr : ProfitProjection) : ProfitProjection :=
  if Qlt_bool (distance curr target) (distance prev target) then curr else prev.

Definition viabilityOf (ca : CostAnalysisResult) (moderateSalesEstimate : Z)
  (estimatedMonthlyProfit : Q) (target : option Q) : Viability :=
  if Qlt_bool (ca_contributionMarginPercent ca) 30
     || extZ_gtb (ca_breakEvenUnits ca) moderateSalesEstimate then Low
  else if Qlt_bool 50 (ca_contributionMarginPercent ca)
          && Qlt_bool (or_default target 500) estimatedMonthlyProfit then High
  else Moderate.

(** The computed part of [generateBusinessPlan]; [None] is a thrown
    TypeError (the non-null assertion on [find], or [reduce] of an empty
    array). Insights, action items and risks are not modelled. *)
Definition generateBusinessPlan (input : BusinessPlanInput) : option BusinessPlanResult :=
  let materialCosts := calculateMaterialCosts (bp_materials input) in
  let suggestedPrice := suggestedPriceMid 10 in
  let fees := bp_etsyFees input in
  let totalEtsyFees :=
    listingFee fees + transactionFee fees + paymentProcessingFee fees
    + offsiteAdsFee fees in
  let variableCosts :=
    mkVariableCosts (mc_totalCost materialCosts) totalEtsyFees
      (shippingCostPerItem input) (laborCostPerItem input)
      (packagingCostPerItem input) in
  let costAnalysis :=
    analyzeBusinessCosts (bp_fixedCosts input) variableCosts suggestedPrice
      [10; 25; 50; 100; 200] in
  let salesEstimates :=
    estimateSalesVolume suggestedPrice (isNewShop input) (marketingBudget input) in
  let advertisingPlan :=
    suggestAdvertisingPlatforms (productCategory input)
      (or_default (marketingBudget input) 50) in
  match find (fun e => Scenario_eqb (scenario e) moderate) salesEstimates with
  | None => None
  | Some est =>
    let moderateSalesEstimate := monthlySales est in
    match reduce1 (closer moderateSalesEstimate) (ca_projections costAnalysis) with
    | None => None
    | Some relevantProjection =>
      let estimatedMonthlyProfit := netProfit relevantProjection in
      let viabilityScore :=
        viabilityOf costAnalysis moderateSalesEstimate estimatedMonthlyProfit
          (targetMonthlyIncome input) in
      Some (mkBusinessPlanResult suggestedPrice (ca_breakEvenUnits costAnalysis)
              moderateSalesEstimate (round2 estimatedMonthlyProfit) viabilityScore
              materialCosts costAnalysis salesEstimates advertisingPlan)
    end
  end.

(** ** FeeCalculator, second copy ([etsyFeesCalculator] of dataManagement.ts)

    This copy takes an optional [offsiteAds] defaulting to [false] and
    charges the offsite-ads fee when the flag is truthy. *)
Definition etsyFeesCalculatorDM (itemPrice : Q) (offsiteAds : option bool) : EtsyFees :=
  let offsiteAds := match offsiteAds with Some b => b | None => false end in
  let listingFee := 0.2 in
  let transactionFeeRate := 0.065 in
  let paymentProcessingFeeRate := 0.03 in
  let paymentProcessingFixedFee := 0.25 in
  let offsiteAdsFeeRate := if offsiteAds then 0.12 else 0 in
  let transactionFee := itemPrice * transactionFeeRate in
  let paymentProcessingFee :=
    itemPrice * paymentProcessingFeeRate + paymentProcessingFixedFee in
  let offsiteAdsFee := itemPrice * offsiteAdsFeeRate in
  mkEtsyFees listingFee transactionFee paymentProcessingFee offsiteAdsFee.

(** The sum of the four fees, as [generateBusinessPlan] computes
    [totalEtsyFees]. *)
Definition totalFees (f : EtsyFees) : Q :=
  listingFee f + transactionFee f + paymentProcessingFee f + offsiteAdsFee f.

(** ** Market research statistics of [researchCompetitorPrices] *)

(** [[...prices].sort((a, b) => a - b)]: ascending numeric order
    (insertion sort; the order of equal numbers is irrelevant). *)
Fixpoint insertAsc (x : Q) (l : list Q) : list Q :=
  match l with
  | [] => [x]
  | y :: l' => if Qle_bool x y then x :: l else y :: insertAsc x l'
  end.

Fixpoint sortAsc (l : list Q) : list Q :=
  match l with
  | [] => []
  | x :: l' => insertAsc x (sortAsc l')
  end.

Record PriceStatistics := mkPriceStatistics {
  st_min : Q;
  st_max : Q;
  st_average : Q;
  st_median : Q
}.

Record SuggestedPrice := mkSuggestedPrice {
  sp_low : Q;
  sp_mid : Q;
  sp_high : Q
}.

(** [Math.min(...prices)], [Math.max(...prices)], the average and the
    median of the competitor prices, and the suggested price band. For an
    empty price list the source computes IEEE values (Infinity, NaN), not
    modelled: [None]. *)
Definition priceStatistics (prices : list Q) : option (PriceStatistics * SuggestedPrice) :=
  match prices with
  | [] => None
  | p0 :: ps =>
    let sortedPrices := sortAsc prices in
    let n := length sortedPrices in
    let min := fold_left Qmin ps p0 in
    let max := fold_left Qmax ps p0 in
    let average := fold_left Qplus prices 0 / inject_Z (Z.of_nat (length prices)) in
    let median :=
      if Nat.even n
      then (nth (n / 2 - 1) sortedPrices 0 + nth (n / 2) sortedPrices 0) / 2
      else nth (n / 2) sortedPrices 0 in
    Some (mkPriceStatistics min max (round2 average) (round2 median),
          mkSuggestedPrice (round2 (average * 0.85)) (round2 average)
            (round2 (average * 1.15)))
  end.


(** ** Risks listed by [generateBusinessPlan] *)

Inductive Risk :=
| RiskBreakEvenAboveEstimate
| RiskLowContributionMargin
| RiskNewShopRamp
| RiskNoLaborCost
| RiskMaterialOverHalfPrice
| RiskLowMarketingBudget.

(** The [risks] block of [generateBusinessPlan], from the stage results. *)
Definition risksOf (input : BusinessPlanInput) (materialCosts : MaterialCostsResult)
  (costAnalysis : CostAnalysisResult) (moderateSalesEstimate : Z) (suggestedPrice : Q)
  : list Risk :=
  (if extZ_gtb (ca_breakEvenUnits costAnalysis) moderateSalesEstimate
   then [RiskBreakEvenAboveEstimate] else [])
  ++ (if Qlt_bool (ca_contributionMarginPercent costAnalysis) 30
      then [RiskLowContributionMargin] else [])
  ++ (if isNewShop input then [RiskNewShopRamp] else [])
  ++ (if Qeq_bool (or_default (laborCostPerItem input) 0) 0
      then [RiskNoLaborCost] else [])
  ++ (if Qlt_bool 50 (mc_totalCost materialCosts / suggestedPrice * 100)
      then [RiskMaterialOverHalfPrice] else [])
  ++ (match marketingBudget input with
      | None => [RiskLowMarketingBudget]
      | Some b => if Qeq_bool b 0 || Qlt_bool b 50 then [RiskLowMarketingBudget] else []
      end).

(** The risks of the plan [generateBusinessPlan] returns. *)
Definition generateBusinessPlanRisks (input : BusinessPlanInput) : option (list Risk) :=
  option_map (fun r => risksOf input (materialCosts r) (costAnalysis r)
                         (estimatedMonthlySales r) (recommendedPrice r))
    (generateBusinessPlan input).

(** ** File names of [saveBusinessData] and [loadBusinessData] *)

(** [s.endsWith(suffix)]: some suffix of [s] is [suffix]. *)
Fixpoint endsWith (suffix s : string) : bool :=
  String.eqb s suffix ||
  match s with
  | EmptyString => false
  | String _ s' => endsWith suffix s'
  end.

Definition isLowerAlnum (c : ascii) : bool :=
  let n := nat_of_ascii c in
  ((97 <=? n)%nat && (n <=? 122)%nat) || ((48 <=? n)%nat && (n <=? 57)%nat).

Definition dash : ascii := "-".

(** [.replace(/[^a-z0-9]/g, "-")] *)
Fixpoint replaceNonAlnum (s : string) : string :=
  match s with
  | EmptyString => EmptyString
  | String c s' => String (if isLowerAlnum c then c else dash) (replaceNonAlnum s')
  end.

(** [.replace(/-+/g, "-")]: every run of dashes becomes one dash. *)
Fixpoint collapseDashes (s : string) : string :=
  match s with
  | EmptyString => EmptyString
  | String c s' =>
      if Ascii.eqb c dash then
        match s' with
        | String d _ => if Ascii.eqb d dash then collapseDashes s'
                        else String c (collapseDashes s')
        | EmptyString => String c EmptyString
        end
      else String c (collapseDashes s')
  end.

(** [.replace(/^-|-$/g, "")]: drop one leading and one trailing dash. *)
Definition dropLeadingDash (s : string) : string :=
  match s with
  | String c s' => if Ascii.eqb c dash then s' else s
  | EmptyString => EmptyString
  end.

Fixpoint dropTrailingDash (s : string) : string :=
  match s with
  | EmptyString => EmptyString
  | String c EmptyString => if Ascii.eqb c dash then EmptyString else s
  | String c s' => String c (dropTrailingDash s')
  end.

Definition sanitizeBusinessName (businessName : string) : string :=
  dropTrailingDash (dropLeadingDash
    (collapseDashes (replaceNonAlnum (toLowerCase businessName)))).

(** [generateFilename], the date [new Date().toISOString().split("T")[0]]
    being the parameter [timestamp]; an empty custom name is falsy. *)
Definition generateFilename (businessName : string) (customFilename : option string)
  (timestamp : string) : string :=
  match customFilename with
  | Some f =>
      if String.eqb f "" then
        sanitizeBusinessName businessName ++ "-" ++ timestamp ++ ".json"
      else if endsWith ".json" f then f else f ++ ".json"
  | None => sanitizeBusinessName businessName ++ "-" ++ timestamp ++ ".json"
  end.

(** The file name [loadBusinessData] opens for [filename]. *)
Definition loadFileName (filename : string) : string :=
  if endsWith ".json" filename then filename else filename ++ ".json".

(** Shape of a sanitized name, as decidable checks. *)
Fixpoint allowedChars (s : string) : bool :=
  match s with
  | EmptyString => true
  | String c s' => (isLowerAlnum c || Ascii.eqb c dash) && allowedChars s'
  end.

Definition startsWithDash (s : string) : bool :=
  match s with
  | String c _ => Ascii.eqb c dash
  | EmptyString => false
  end.

Fixpoint endsWithDash (s : string) : bool :=
  match s with
  | EmptyString => false
  | String c s' =>
      match s' with
      | EmptyString => Ascii.eqb c dash
      | _ => endsWithDash s'
      end
  end.

Fixpoint noDoubleDash (s : string) : bool :=
  match s with
  | EmptyString => true
  | String c s' => negb (Ascii.eqb c dash && startsWithDash s') && noDoubleDash s'
  end.

(** The accumulator of the [potentialSavings] reduce. *)
Definition savingsStep (sum : Q) (m : MaterialCostDetail) : Q :=
  match d_bulkOption m with
  | Some b => if Qle_bool (bulkQuantity b) (d_quantity m)
              then sum + savingsPerUnit b * d_quantity m else sum
  | None => sum
  end.

Definition sumQ (l : list Q) : Q := fold_right Qplus 0 l.

(** A catalog entry whose bulk offer needs at least one unit and saves at
    least a cent per unit. *)
Definition bulkSane (info : PriceInfo) : bool :=
  match pi_bulkOption info with
  | Some (bq, bp) => Qle_bool 1 bq && Qle_bool (1 # 100) (round2 (pi_pricePerUnit info - bp))
  | None => true
  end.

(** ** Saving and loading business data

    The data directory is a store from file names to the parsed contents
    of the files; [JSON.stringify] followed by [JSON.parse] is taken to give
    the object back. [now] is [new Date().toISOString()] and [today] its
    date part, read by [generateFilename]. *)
Record BusinessData (A : Type) := mkBusinessData {
  bd_businessName : string;
  bd_data : A;
  bd_createdAt : string;
  bd_updatedAt : string
}.
Arguments mkBusinessData {A}.

Definition Store (A : Type) : Type := string -> option (BusinessData A).

(** [saveBusinessData]: [fs.writeFileSync] creates or overwrites the file;
    the returned name is the file part of [filePath]. *)
Definition saveBusinessData {A : Type} (store : Store A) (businessName : string) (data : A)
  (filename : option string) (now today : string) : Store A * string :=
  let businessData := mkBusinessData businessName data now now in
  let fileName := generateFilename businessName filename today in
  ((fun f => if String.eqb f fileName then Some businessData else store f), fileName).

(** [loadBusinessData]: [None] is the "File not found" result. *)
Definition loadBusinessData {A : Type} (store : Store A) (filename : string)
  : option (BusinessData A) :=
  store (loadFileName filename).

(** A material without its preferred supplier, and a cost line without
    its supplier. *)
Definition clearSupplier (m : Material) : Material :=
  mkMaterial (m_name m) (m_quantity m) (m_unit m) None.

Definition eraseSupplier (d : MaterialCostDetail) : MaterialCostDetail :=
  mkMaterialCostDetail (d_name d) (d_quantity d) (d_unit d) (d_pricePerUnit d)
    (d_totalCost d) EmptyString (d_bulkOption d) (d_alternativeSuppliers d).

(** The body of [calculateMaterialCosts] after the [map], as a function of
    the cost lines. *)
Definition materialCostsOfDetails (details : list MaterialCostDetail) : MaterialCostsResult :=
  let totalCost := fold_left (fun sum m => sum + d_totalCost m) details 0 in
  let potentialSavings := fold_left savingsStep details 0 in
  let bulkEligible := filter bulkEligibleb details in
  let r1 := if (0 <? length bulkEligible)%nat
            then [RecBulk (round2 potentialSavings) (length bulkEligible)] else [] in
  let cheaperAlternatives := filter cheaperAlternativeb details in
  let r2 := if (0 <? length cheaperAlternatives)%nat
            then [RecAlternatives (map d_name cheaperAlternatives)] else [] in
  let r3 := if Qlt_bool 50 totalCost then [RecHighCost] else [] in
  mkMaterialCostsResult details (round2 totalCost) (round2 potentialSavings)
    (r1 ++ r2 ++ r3).

(** * Properties *)

(** ** General lemmas *)

Lemma Qlt_bool_iff (x y : Q) : Qlt_bool x y = true <-> x < y.
Proof.
  unfold Qlt_bool. rewrite negb_true_iff. split.
  - intros H. apply Qnot_le_lt. intros H'. apply Qle_bool_iff in H'. congruence.
  - intros H. destruct (Qle_bool y x) eqn:E; [|reflexivity].
    apply Qle_bool_iff in E. exfalso. exact (Qlt_not_le _ _ H E).
Qed.

Lemma Qlt_bool_false (x y : Q) : Qlt_bool x y = false <-> y <= x.
Proof.
  unfold Qlt_bool. rewrite negb_false_iff. apply Qle_bool_iff.
Qed.

(** [Math.round] of an integer is that integer. *)
Lemma Math_round_Z (z : Z) : Math_round (inject_Z z) = z.
Proof.
  unfold Math_round, Qfloor, inject_Z, Qplus. simpl.
  rewrite Z.div_add_l by lia. simpl. apply Z.add_0_r.
Qed.

Lemma Math_round_comp (x y : Q) : x == y -> Math_round x = Math_round y.
Proof.
  intros H. unfold Math_round. apply Qfloor_comp. rewrite H. reflexivity.
Qed.

(** [Math.round] is monotone. *)
Lemma Math_round_le (x y : Q) : x <= y -> (Math_round x <= Math_round y)%Z.
Proof.
  intros H. unfold Math_round. apply Qfloor_resp_le.
  apply Qplus_le_compat; [exact H | apply Qle_refl].
Qed.

(** [find] returns nothing when no element satisfies the predicate. *)
Lemma find_none_Forall {A} (f : A -> bool) (l : list A) :
  Forall (fun x => f x = false) l -> find f l = None.
Proof.
  induction 1 as [|x l Hx _ IH]; simpl; [reflexivity|].
  rewrite Hx. exact IH.
Qed.

(** ** MaterialCostEngine *)

Definition waxOrder : list Material := [mkMaterial "wax" 12 "oz" None].

(** C1 (counterexample): for twelve ounces of wax the result is not
    [totalCost = 25.20, potentialSavings = 4.80]: the line is priced at the
    primary 2.50 per unit, the bulk tier only feeds [potentialSavings]. *)
Lemma C1_wax_not_bulk_priced :
  ~ (mc_totalCost (calculateMaterialCosts waxOrder) == 25.20
     /\ mc_potentialSavings (calculateMaterialCosts waxOrder) == 4.80).
Proof.
  intros [H _]. vm_compute in H. discriminate H.
Qed.

(** C1: for [materials = [{name: "wax", quantity: 12, unit: "oz"}]],
    [calculateMaterialCosts] returns [totalCost = 30.00] (12 x 2.50, the
    primary price) and [potentialSavings = 4.80] ((2.50 - 2.10) x 12, the
    bulk tier of 10 units being reached). *)
Theorem C1_wax_totals :
  mc_totalCost (calculateMaterialCosts waxOrder) == 30
  /\ mc_potentialSavings (calculateMaterialCosts waxOrder) == 4.80.
Proof.
  split; vm_compute; reflexivity.
Qed.

(** C2 (code behaviour): the alternative-supplier recommendation tests
    [savings < 0], i.e. an alternative DEARER than the primary supplier.
    For paint (5.99, alternative 6.50) the recommendation is emitted
    although no cheaper supplier exists; for yarn (7.99, alternative 7.49)
    it is not emitted although a cheaper supplier exists. *)
Theorem C2_alternative_check_inverted :
  (exists d, mc_materials (calculateMaterialCosts [mkMaterial "paint" 1 "oz" None]) = [d]
     /\ (forall l, d_alternativeSuppliers d = Some l ->
           Forall (fun a => d_pricePerUnit d < alt_pricePerUnit a) l))
  /\ In (RecAlternatives ["paint"])
        (mc_recommendations (calculateMaterialCosts [mkMaterial "paint" 1 "oz" None]))
  /\ (exists d, mc_materials (calculateMaterialCosts [mkMaterial "yarn" 1 "skein" None]) = [d]
       /\ exists l a, d_alternativeSuppliers d = Some l /\ In a l
                      /\ alt_pricePerUnit a < d_pricePerUnit d)
  /\ (forall names,
        ~ In (RecAlternatives names)
            (mc_recommendations (calculateMaterialCosts [mkMaterial "yarn" 1 "skein" None]))).
Proof.
  split; [|split; [|split]].
  - eexists. split; [vm_compute; reflexivity|].
    intros l Hl. vm_compute in Hl. injection Hl as <-.
    repeat constructor.
  - vm_compute. left. reflexivity.
  - eexists. split; [vm_compute; reflexivity|].
    do 2 eexists. split; [vm_compute; reflexivity|].
    split; [left; reflexivity|]. reflexivity.
  - intros names H. vm_compute in H. exact H.
Qed.

Definition unknownMaterial : Material := mkMaterial "glitter" 0.125 "oz" None.

(** C9 (counterexample): an unknown material bought in a quantity that is
    not a whole number of cents at 5.00 per unit gets a line total rounded
    to cents: 0.63 rather than 5.00 x 0.125 = 0.625. *)
Lemma C9_unknown_line_rounded :
  lookupPrice (m_name unknownMaterial) = None
  /\ ~ (forall d, In d (mc_materials (calculateMaterialCosts [unknownMaterial])) ->
          d_totalCost d == 5 * m_quantity unknownMaterial).
Proof.
  split; [reflexivity|].
  intros H. specialize (H _ (or_introl eq_refl)). vm_compute in H. discriminate H.
Qed.

(** C9: a material whose lower-cased name equals no lower-cased catalog key
    is resolved without failure: price 5.00 per unit, supplier
    "Generic Supplier" unless a non-empty [preferredSupplier] replaces it,
    no bulk option or alternatives, and line [totalCost] equal to
    5.00 x quantity rounded to cents. *)
Theorem C9_unknown_material_default (materials : list Material) (material : Material)
  (Hin : In material materials)
  (Hunknown : Forall (fun key => toLowerCase key <> toLowerCase (m_name material))
                (map fst mockPriceDatabase)) :
  exists d, In d (mc_materials (calculateMaterialCosts materials))
    /\ d_name d = m_name material
    /\ d_pricePerUnit d == 5.0
    /\ d_supplier d = match m_preferredSupplier material with
                      | Some s => if String.eqb s "" then "Generic Supplier" else s
                      | None => "Generic Supplier"
                      end
    /\ d_totalCost d == round2 (5.0 * m_quantity material)
    /\ d_bulkOption d = None
    /\ d_alternativeSuppliers d = None.
Proof.
  assert (Hnone : lookupPrice (m_name material) = None).
  { unfold lookupPrice. rewrite find_none_Forall; [reflexivity|].
    rewrite Forall_map in Hunknown.
    eapply Forall_impl; [|exact Hunknown].
    intros [k v] Hk. simpl in *. apply String.eqb_neq. exact Hk. }
  exists (materialDetail material). split.
  { simpl. apply in_map. exact Hin. }
  unfold materialDetail. rewrite Hnone.
  destruct (m_preferredSupplier material) as [s|];
    [destruct (String.eqb s "")|]; simpl;
    repeat split; reflexivity.
Qed.

Lemma C9_unknown_material_default_witness :
  exists d, In d (mc_materials (calculateMaterialCosts [unknownMaterial]))
    /\ d_name d = m_name unknownMaterial
    /\ d_pricePerUnit d == 5.0
    /\ d_supplier d = match m_preferredSupplier unknownMaterial with
                      | Some s => if String.eqb s "" then "Generic Supplier" else s
                      | None => "Generic Supplier"
                      end
    /\ d_totalCost d == round2 (5.0 * m_quantity unknownMaterial)
    /\ d_bulkOption d = None
    /\ d_alternativeSuppliers d = None.
Proof.
  apply C9_unknown_material_default; [left; reflexivity|].
  simpl map.
  repeat (apply Forall_cons; [intro H; vm_compute in H; discriminate H|]).
  apply Forall_nil.
Defined.

(** ** FeeCalculator *)

(** C8: [offsiteAdsFee] is 0 when the [offsiteAds] flag is [false] or
    [null] (the calculator is total, a null flag is no error), and
    [itemPrice x 0.12], positive for a positive price, when it is [true]. *)
Theorem C8_offsite_ads_fee (itemPrice : Q) :
  offsiteAdsFee (etsyFeesCalculator itemPrice (Some false)) == 0
  /\ offsiteAdsFee (etsyFeesCalculator itemPrice None) == 0
  /\ offsiteAdsFee (etsyFeesCalculator itemPrice (Some true)) == itemPrice * 0.12
  /\ (0 < itemPrice -> 0 < offsiteAdsFee (etsyFeesCalculator itemPrice (Some true))).
Proof.
  simpl. split; [ring|split; [ring|split; [reflexivity|]]].
  intros H. apply (Qmult_lt_compat_r 0 itemPrice 0.12) in H; [|reflexivity].
  rewrite Qmult_0_l in H. exact H.
Qed.

Lemma C8_offsite_ads_fee_witness :
  offsiteAdsFee (etsyFeesCalculator 30 (Some true)) == 3.60
  /\ 0 < offsiteAdsFee (etsyFeesCalculator 30 (Some true)).
Proof.
  split; [reflexivity|].
  destruct (C8_offsite_ads_fee 30) as [_ [_ [_ H]]]. apply H. reflexivity.
Defined.

(** ** AdvertisingAllocator *)

Lemma recommended_affordable (productCategory : string) (monthlyBudget : Q) :
  10 <= monthlyBudget ->
  filter (fun p => Qle_bool (ap_minimumBudget p) monthlyBudget)
    (map allPlatforms (recommendedPlatformNames productCategory))
  = map allPlatforms (recommendedPlatformNames productCategory).
Proof.
  intros H.
  assert (H1 : Qle_bool 1 monthlyBudget = true)
    by (apply Qle_bool_iff; eapply Qle_trans; [|exact H]; discriminate).
  assert (H5 : Qle_bool 5 monthlyBudget = true)
    by (apply Qle_bool_iff; eapply Qle_trans; [|exact H]; discriminate).
  assert (H10 : Qle_bool 10 monthlyBudget = true) by (apply Qle_bool_iff; exact H).
  unfold recommendedPlatformNames.
  repeat match goal with |- context [if ?c then _ else _] => destruct c end;
    cbn [map filter allPlatforms ap_minimumBudget]; rewrite ?H1, ?H5, ?H10;
    reflexivity.
Qed.

(** Every category selects Etsy Ads and two of the external platforms
    whose minimum budget is at most 10. *)
Lemma recommended_shape (productCategory : string) :
  exists k1 k2, recommendedPlatformNames productCategory = [etsyAds; k1; k2]
    /\ (k1 = facebookInstagram \/ k1 = pinterest)
    /\ (k2 = pinterest \/ k2 = facebookInstagram \/ k2 = googleAds).
Proof.
  unfold recommendedPlatformNames.
  repeat match goal with |- context [if ?c then _ else _] => destruct c end;
    do 2 eexists; (split; [reflexivity|]); tauto.
Qed.

(** C5: for every product category and every monthly budget, the
    [percentage] fields of [budgetAllocation] sum to exactly 100 (so a
    fortiori to 100 within +/-1). *)
Theorem C5_percentages_sum_100 (productCategory : string) (monthlyBudget : Q) :
  percentageSum
    (ad_budgetAllocation (suggestAdvertisingPlatforms productCategory monthlyBudget))
  = 100%Z.
Proof.
  unfold suggestAdvertisingPlatforms. cbn [ad_budgetAllocation].
  unfold budgetAllocationOf.
  destruct (Qlt_bool monthlyBudget 50) eqn:H50; [reflexivity|].
  apply Qlt_bool_false in H50.
  rewrite recommended_affordable
    by (eapply Qle_trans; [|exact H50]; discriminate).
  destruct (recommended_shape productCategory) as (k1 & k2 & E & Hk1 & Hk2).
  rewrite E.
  destruct Hk1 as [-> | ->]; destruct Hk2 as [-> | [-> | ->]];
    destruct (Qlt_bool monthlyBudget 150); reflexivity.
Qed.

(** ** PlanOrchestrator *)

(** [generateBusinessPlan] never throws: the moderate estimate exists and
    the projection list (five volumes) is not empty. The result is made of
    the stage results the source threads through. *)
Lemma generateBusinessPlan_shape (input : BusinessPlanInput) :
  exists r, generateBusinessPlan input = Some r
    /\ advertisingPlan r
       = suggestAdvertisingPlatforms (productCategory input)
           (or_default (marketingBudget input) 50)
    /\ (exists q, reduce1 (closer (estimatedMonthlySales r))
                    (ca_projections (costAnalysis r)) = Some q
          /\ viabilityScore r
             = viabilityOf (costAnalysis r) (estimatedMonthlySales r) (netProfit q)
                 (targetMonthlyIncome input)).
Proof.
  eexists. split; [reflexivity|]. split; [reflexivity|].
  eexists. split; reflexivity.
Qed.

(** The projection kept by [reduce] with [closer] is one of the projections
    and is at least as close to the target as every other. *)
Lemma fold_closer_nearest (m : Z) (l : list ProfitProjection) (acc : ProfitProjection) :
  (fold_left (closer m) l acc = acc \/ In (fold_left (closer m) l acc) l)
  /\ distance (fold_left (closer m) l acc) m <= distance acc m
  /\ (forall q', In q' l -> distance (fold_left (closer m) l acc) m <= distance q' m).
Proof.
  revert acc. induction l as [|x l IH]; intros acc; simpl.
  - split; [left; reflexivity|]. split; [apply Qle_refl|]. intros _ [].
  - destruct (IH (closer m acc x)) as (Hin & Hle & Hall).
    assert (Hacc : distance (closer m acc x) m <= distance acc m
                   /\ distance (closer m acc x) m <= distance x m).
    { unfold closer. destruct (Qlt_bool (distance x m) (distance acc m)) eqn:E.
      - apply Qlt_bool_iff in E. split; [apply Qlt_le_weak; exact E|apply Qle_refl].
      - apply Qlt_bool_false in E. split; [apply Qle_refl|exact E]. }
    destruct Hacc as [Ha Hx].
    split; [|split].
    + destruct Hin as [Hin|Hin]; [|right; right; exact Hin].
      rewrite Hin. unfold closer.
      destruct (Qlt_bool (distance x m) (distance acc m)); [right; left; reflexivity|].
      left; reflexivity.
    + eapply Qle_trans; [exact Hle|exact Ha].
    + intros q' [<-|Hq'].
      * eapply Qle_trans; [exact Hle|exact Hx].
      * apply Hall; exact Hq'.
Qed.

Lemma reduce1_closer_nearest (m : Z) (l : list ProfitProjection) (q : ProfitProjection) :
  reduce1 (closer m) l = Some q ->
  In q l /\ (forall q', In q' l -> distance q m <= distance q' m).
Proof.
  destruct l as [|x l]; simpl; [discriminate|]. intros H. injection H as <-.
  destruct (fold_closer_nearest m l x) as (Hin & Hle & Hall).
  split.
  - destruct Hin as [Hin|Hin]; [left; symmetry; exact Hin|right; exact Hin].
  - intros q' [<-|Hq']; [exact Hle|apply Hall; exact Hq'].
Qed.

(** C10: when [marketingBudget] is absent or 0, [generateBusinessPlan]
    calls the advertising stage with a monthly budget of 50, so
    [advertisingPlan.totalBudget] is 50. *)
Theorem C10_default_ad_budget (input : BusinessPlanInput)
  (Hbudget : marketingBudget input = None \/ marketingBudget input = Some 0) :
  match generateBusinessPlan input with
  | Some r => ad_totalBudget (advertisingPlan r) == 50
  | None => False
  end.
Proof.
  destruct (generateBusinessPlan_shape input) as (r & -> & Had & _).
  rewrite Had. simpl. unfold or_default.
  destruct Hbudget as [-> | ->]; reflexivity.
Qed.

Definition candleInput (target budget : option Q) : BusinessPlanInput :=
  mkBusinessPlanInput "soy candle" None "home decor" [] [] (mkEtsyFees 0 0 0 0)
    true target budget None None None.

Lemma C10_default_ad_budget_witness :
  marketingBudget (candleInput None (Some 0)) = Some 0
  /\ match generateBusinessPlan (candleInput None (Some 0)) with
     | Some r => ad_totalBudget (advertisingPlan r) == 50
     | None => False
     end.
Proof.
  split; [reflexivity|].
  apply C10_default_ad_budget. right. reflexivity.
Defined.

(** The viability rule as the specification words it: the income
    threshold is [targetMonthlyIncome] when it is specified, 500 otherwise. *)
Definition claimedViability (contributionMarginPercent : Q) (breakEvenUnits : extZ)
  (moderateVolume : Z) (expectedProfit : Q) (targetMonthlyIncome : option Q) : Viability :=
  let threshold := match targetMonthlyIncome with Some t => t | None => 500 end in
  if Qlt_bool contributionMarginPercent 30 || extZ_gtb breakEvenUnits moderateVolume
  then Low
  else if Qlt_bool 50 contributionMarginPercent && Qlt_bool threshold expectedProfit
  then High
  else Moderate.

(** C3 (counterexample): with [targetMonthlyIncome = 0] given explicitly,
    the code still compares the expected profit with 500 ([0 || 500]): a
    new shop with no costs (margin 100%, break-even 0, moderate volume 15,
    expected profit 327.50 at volume 10) is rated Moderate, where the
    threshold 0 of the specified target would give High. *)
Lemma C3_zero_target_uses_default :
  match generateBusinessPlan (candleInput (Some 0) None) with
  | Some r =>
      viabilityScore r = Moderate
      /\ exists q, In q (ca_projections (costAnalysis r))
         /\ (forall q', In q' (ca_projections (costAnalysis r)) ->
               distance q (estimatedMonthlySales r) <= distance q' (estimatedMonthlySales r))
         /\ claimedViability (ca_contributionMarginPercent (costAnalysis r))
              (ca_breakEvenUnits (costAnalysis r)) (estimatedMonthlySales r)
              (netProfit q) (Some 0) = High
  | None => False
  end.
Proof.
  destruct (generateBusinessPlan (candleInput (Some 0) None)) as [r|] eqn:E;
    vm_compute in E; [|discriminate E].
  injection E as <-. split; [reflexivity|].
  eexists. split; [left; reflexivity|]. split; [|reflexivity].
  intros q' Hq'. simpl in Hq'.
  repeat destruct Hq' as [<-|Hq']; try contradiction; vm_compute; discriminate.
Qed.

(** C3: in every plan, with [m] the moderate monthly volume and [q] a
    projection nearest to [m] (by absolute difference of volumes), the
    viability is Low when [contributionMarginPercent < 30] or
    [breakEvenUnits > m]; otherwise High when [contributionMarginPercent > 50]
    and [q.netProfit] exceeds [targetMonthlyIncome], 500 being used when
    the target is absent or 0; otherwise Moderate. *)
Theorem C3_viability_rule (input : BusinessPlanInput) :
  match generateBusinessPlan input with
  | Some r =>
      let ca := costAnalysis r in
      let m := estimatedMonthlySales r in
      exists q, In q (ca_projections ca)
        /\ (forall q', In q' (ca_projections ca) -> distance q m <= distance q' m)
        /\ viabilityScore r =
           (if Qlt_bool (ca_contributionMarginPercent ca) 30
               || extZ_gtb (ca_breakEvenUnits ca) m
            then Low
            else if Qlt_bool 50 (ca_contributionMarginPercent ca)
                    && Qlt_bool (match targetMonthlyIncome input with
                                 | Some t => if Qeq_bool t 0 then 500 else t
                                 | None => 500
                                 end) (netProfit q)
            then High
            else Moderate)
  | None => False
  end.
Proof.
  destruct (generateBusinessPlan_shape input) as (r & -> & _ & q & Hq & Hv).
  apply reduce1_closer_nearest in Hq. destruct Hq as [Hin Hnear].
  simpl. exists q. split; [exact Hin|]. split; [exact Hnear|].
  rewrite Hv. unfold viabilityOf, or_default. reflexivity.
Qed.

(** ** CostAnalyzer *)

(** A product at price 1 with variable cost 0.6651 and a monthly fixed
    cost of 10: the contribution margin 0.3349 is returned as 0.33. *)
Definition thinMarginAnalysis : CostAnalysisResult :=
  analyzeBusinessCosts [mkFixedCost "studio rent" 10 monthly]
    (mkVariableCosts 0.6651 0 None None None) 1 [].

(** C4 (counterexample): on the fields of the returned result the first
    inequality fails: [contributionMargin = 0.33 > 0], [breakEvenUnits = 30]
    (computed from the unrounded margin), and [30 x 0.33 = 9.90 < 10]. *)
Lemma C4_rounded_margin_breaks_bound :
  0 < ca_contributionMargin thinMarginAnalysis
  /\ ca_breakEvenUnits thinMarginAnalysis = Zfin 30
  /\ ~ (ca_monthlyFixedCosts thinMarginAnalysis
        <= inject_Z 30 * ca_contributionMargin thinMarginAnalysis).
Proof.
  split; [reflexivity|]. split; [reflexivity|].
  vm_compute. intros H. apply H. reflexivity.
Qed.

(** C4: when the unrounded contribution margin [cm = sellingPrice -
    variableCostPerItem] is positive, [breakEvenUnits] is a finite [n] with
    [n x cm >= F] and [(n - 1) x cm < F], [F] the unrounded monthly fixed
    costs: the least unit count covering them. The returned
    [contributionMargin] and [monthlyFixedCosts] are [cm] and [F] rounded
    to cents. *)
Theorem C4_break_even_least (fixedCosts : list FixedCost) (variableCosts : VariableCosts)
  (sellingPrice : Q) (salesVolumes : list Q)
  (Hcm : 0 < sellingPrice - variableCostPerItemOf variableCosts) :
  exists n,
    ca_breakEvenUnits (analyzeBusinessCosts fixedCosts variableCosts sellingPrice salesVolumes)
      = Zfin n
    /\ monthlyFixedCostsOf fixedCosts
       <= inject_Z n * (sellingPrice - variableCostPerItemOf variableCosts)
    /\ inject_Z (n - 1) * (sellingPrice - variableCostPerItemOf variableCosts)
       < monthlyFixedCostsOf fixedCosts
    /\ ca_contributionMargin (analyzeBusinessCosts fixedCosts variableCosts sellingPrice salesVolumes)
       = round2 (sellingPrice - variableCostPerItemOf variableCosts)
    /\ ca_monthlyFixedCosts (analyzeBusinessCosts fixedCosts variableCosts sellingPrice salesVolumes)
       = round2 (monthlyFixedCostsOf fixedCosts).
Proof.
  set (cm := sellingPrice - variableCostPerItemOf variableCosts) in *.
  set (F := monthlyFixedCostsOf fixedCosts).
  assert (Hnz : ~ cm == 0).
  { intros H0. rewrite H0 in Hcm. exact (Qlt_irrefl 0 Hcm). }
  assert (HF : F / cm * cm == F) by (field; exact Hnz).
  exists (Math_ceil (F / cm)).
  split; [|split; [|split; [|split; reflexivity]]].
  - simpl. unfold ceil_div. fold cm F.
    destruct (Qeq_bool cm 0) eqn:E; [|reflexivity].
    apply Qeq_bool_eq in E. contradiction.
  - apply Qle_trans with (F / cm * cm); [rewrite HF; apply Qle_refl|].
    apply Qmult_le_compat_r; [apply Qle_ceiling|].
    apply Qlt_le_weak; exact Hcm.
  - apply Qlt_le_trans with (F / cm * cm); [|rewrite HF; apply Qle_refl].
    apply Qmult_lt_compat_r; [exact Hcm|]. apply Qceiling_lt.
Qed.

Lemma C4_break_even_least_witness :
  0 < 20 - variableCostPerItemOf (mkVariableCosts 5 2 None None None)
  /\ exists n,
    ca_breakEvenUnits (analyzeBusinessCosts [mkFixedCost "subscription" 120 monthly]
                         (mkVariableCosts 5 2 None None None) 20 [10; 50]) = Zfin n
    /\ monthlyFixedCostsOf [mkFixedCost "subscription" 120 monthly]
       <= inject_Z n * (20 - variableCostPerItemOf (mkVariableCosts 5 2 None None None))
    /\ inject_Z (n - 1) * (20 - variableCostPerItemOf (mkVariableCosts 5 2 None None None))
       < monthlyFixedCostsOf [mkFixedCost "subscription" 120 monthly]
    /\ ca_contributionMargin (analyzeBusinessCosts [mkFixedCost "subscription" 120 monthly]
                         (mkVariableCosts 5 2 None None None) 20 [10; 50])
       = round2 (20 - variableCostPerItemOf (mkVariableCosts 5 2 None None None))
    /\ ca_monthlyFixedCosts (analyzeBusinessCosts [mkFixedCost "subscription" 120 monthly]
                         (mkVariableCosts 5 2 None None None) 20 [10; 50])
       = round2 (monthlyFixedCostsOf [mkFixedCost "subscription" 120 monthly]).
Proof.
  split; [reflexivity|].
  apply C4_break_even_least. reflexivity.
Defined.

(** ** SalesEstimator *)

Lemma marketingMultiplier_nonneg (b : Q) : -400 <= b -> 0 <= marketingMultiplier b.
Proof.
  intros H. unfold marketingMultiplier.
  assert (E : 1 + b / 200 * 0.5 == 1 + b * (1 # 400)) by field.
  rewrite E. lra.
Qed.

Lemma round_scale_le (x y : Z) (m : Q) :
  (x <= y)%Z -> 0 <= m -> (Math_round (inject_Z x * m) <= Math_round (inject_Z y * m))%Z.
Proof.
  intros Hxy Hm. apply Math_round_le. apply Qmult_le_compat_r; [|exact Hm].
  rewrite <- Zle_Qle. exact Hxy.
Qed.

(** C6 (counterexample): a marketing budget of -800 makes the multiplier
    -1, and the scenarios come out reversed: conservative -5 > moderate -15. *)
Lemma C6_negative_budget_reverses :
  match estimateSalesVolume 10 true (Some (-800)) with
  | [c; m; o] => (monthlySales m < monthlySales c)%Z /\ (monthlySales o < monthlySales m)%Z
  | _ => False
  end.
Proof.
  vm_compute. split; reflexivity.
Qed.

(** C6: whenever the marketing budget is at least -400 (absent counts as
    0), i.e. the marketing multiplier is not negative, the estimates are
    conservative, moderate, optimistic in this order and
    conservative <= moderate <= optimistic for monthly, quarterly and
    annual sales. *)
Theorem C6_scenario_order (competitorPrice : Q) (isNewShop : bool)
  (marketingBudget : option Q)
  (Hbudget : forall b, marketingBudget = Some b -> -400 <= b) :
  match estimateSalesVolume competitorPrice isNewShop marketingBudget with
  | [c; m; o] =>
      scenario c = conservative /\ scenario m = moderate /\ scenario o = optimistic
      /\ (monthlySales c <= monthlySales m <= monthlySales o)%Z
      /\ (quarterlySales c <= quarterlySales m <= quarterlySales o)%Z
      /\ (annualSales c <= annualSales m <= annualSales o)%Z
  | _ => False
  end.
Proof.
  assert (Hm : 0 <= marketingMultiplier
                      (match marketingBudget with Some b => b | None => 0 end)).
  { apply marketingMultiplier_nonneg.
    destruct marketingBudget as [b|]; [apply Hbudget; reflexivity|discriminate]. }
  unfold estimateSalesVolume.
  set (M := marketingMultiplier _) in *.
  assert (H1 := round_scale_le 5 15 M ltac:(lia) Hm).
  assert (H2 := round_scale_le 15 30 M ltac:(lia) Hm).
  assert (H3 := round_scale_le 15 40 M ltac:(lia) Hm).
  assert (H4 := round_scale_le 40 80 M ltac:(lia) Hm).
  destruct isNewShop; simpl; (split; [reflexivity|]); (split; [reflexivity|]);
    (split; [reflexivity|]); lia.
Qed.

Lemma C6_scenario_order_witness :
  (forall b, Some 100 = Some b -> -400 <= b)
  /\ match estimateSalesVolume 32.75 true (Some 100) with
     | [c; m; o] =>
         scenario c = conservative /\ scenario m = moderate /\ scenario o = optimistic
         /\ (monthlySales c <= monthlySales m <= monthlySales o)%Z
         /\ (quarterlySales c <= quarterlySales m <= quarterlySales o)%Z
         /\ (annualSales c <= annualSales m <= annualSales o)%Z
     | _ => False
     end.
Proof.
  assert (H : forall b, Some 100 = Some b -> -400 <= b)
    by (intros b E; injection E as <-; discriminate).
  split; [exact H|]. apply C6_scenario_order. exact H.
Defined.

(** C7 (counterexample): for an established shop with no marketing budget
    and price 10.125, the conservative scenario has monthly revenue
    [round(15 x 10.125) = 151.88] but quarterly revenue
    [round(45 x 10.125) = 455.63], not [3 x 151.88 = 455.64]. *)
Lemma C7_revenue_rounded_independently :
  match estimateSalesVolume 10.125 false None with
  | c :: _ =>
      quarterlySales c = (3 * monthlySales c)%Z
      /\ ~ (quarterlyRevenue c == 3 * monthlyRevenue c)
  | [] => False
  end.
Proof.
  vm_compute. split; [reflexivity|]. intros H. discriminate H.
Qed.

(** Revenue of a scenario whose unrounded monthly revenue is a whole
    number of cents. *)
Lemma round2_whole_cents (base : Z) (price : Q) (k c : Z) :
  inject_Z base * price * 100 == inject_Z k ->
  round2 (inject_Z (base * c) * price) == inject_Z c * round2 (inject_Z base * price).
Proof.
  intros H. unfold round2.
  assert (Hc : inject_Z (base * c) * price * 100 == inject_Z (k * c)).
  { rewrite !inject_Z_mult, <- H. ring. }
  rewrite (Math_round_comp _ _ Hc), (Math_round_comp _ _ H), !Math_round_Z.
  rewrite inject_Z_mult. field.
Qed.

(** C7: in every estimate, [quarterlySales = 3 x monthlySales] and
    [annualSales = 12 x monthlySales] exactly; each revenue is its own unit
    count times the price, rounded to cents, so [quarterlyRevenue =
    3 x monthlyRevenue] and [annualRevenue = 12 x monthlyRevenue] hold
    whenever [monthlySales x competitorPrice] is a whole number of cents. *)
Theorem C7_multiples (competitorPrice : Q) (isNewShop : bool) (marketingBudget : option Q) :
  Forall (fun e =>
      quarterlySales e = (monthlySales e * 3)%Z
      /\ annualSales e = (monthlySales e * 12)%Z
      /\ monthlyRevenue e = round2 (inject_Z (monthlySales e) * competitorPrice)
      /\ quarterlyRevenue e = round2 (inject_Z (quarterlySales e) * competitorPrice)
      /\ annualRevenue e = round2 (inject_Z (annualSales e) * competitorPrice)
      /\ (forall k, inject_Z (monthlySales e) * competitorPrice * 100 == inject_Z k ->
            quarterlyRevenue e == 3 * monthlyRevenue e
            /\ annualRevenue e == 12 * monthlyRevenue e))
    (estimateSalesVolume competitorPrice isNewShop marketingBudget).
Proof.
  assert (Hone : forall sc base,
    let e := salesEstimate sc base competitorPrice in
      quarterlySales e = (monthlySales e * 3)%Z
      /\ annualSales e = (monthlySales e * 12)%Z
      /\ monthlyRevenue e = round2 (inject_Z (monthlySales e) * competitorPrice)
      /\ quarterlyRevenue e = round2 (inject_Z (quarterlySales e) * competitorPrice)
      /\ annualRevenue e = round2 (inject_Z (annualSales e) * competitorPrice)
      /\ (forall k, inject_Z (monthlySales e) * competitorPrice * 100 == inject_Z k ->
            quarterlyRevenue e == 3 * monthlyRevenue e
            /\ annualRevenue e == 12 * monthlyRevenue e)).
  { intros sc base. simpl.
    do 5 (split; [reflexivity|]).
    intros k Hk. split; apply (round2_whole_cents base competitorPrice k); exact Hk. }
  unfold estimateSalesVolume.
  constructor; [apply Hone|]. constructor; [apply Hone|].
  constructor; [apply Hone|]. constructor.
Qed.

(** * Further properties of the pipeline *)

(** ** Fees *)

(** For a non-negative price every fee is non-negative, and the
    transaction and payment-processing fees are monotone in the price. *)
Theorem fees_nonneg_monotone (p1 p2 : Q) (offsiteAds : option bool)
  (H0 : 0 <= p1) (H12 : p1 <= p2) :
  0 <= listingFee (etsyFeesCalculator p1 offsiteAds)
  /\ 0 <= transactionFee (etsyFeesCalculator p1 offsiteAds)
  /\ 0 < paymentProcessingFee (etsyFeesCalculator p1 offsiteAds)
  /\ 0 <= offsiteAdsFee (etsyFeesCalculator p1 offsiteAds)
  /\ transactionFee (etsyFeesCalculator p1 offsiteAds)
     <= transactionFee (etsyFeesCalculator p2 offsiteAds)
  /\ paymentProcessingFee (etsyFeesCalculator p1 offsiteAds)
     <= paymentProcessingFee (etsyFeesCalculator p2 offsiteAds).
Proof.
  simpl. destruct offsiteAds as [[|]|]; repeat split; lra.
Qed.

Lemma fees_nonneg_monotone_witness :
  0 <= 20 /\ 20 <= 30 /\
  (0 <= listingFee (etsyFeesCalculator 20 (Some true))
  /\ 0 <= transactionFee (etsyFeesCalculator 20 (Some true))
  /\ 0 < paymentProcessingFee (etsyFeesCalculator 20 (Some true))
  /\ 0 <= offsiteAdsFee (etsyFeesCalculator 20 (Some true))
  /\ transactionFee (etsyFeesCalculator 20 (Some true))
     <= transactionFee (etsyFeesCalculator 30 (Some true))
  /\ paymentProcessingFee (etsyFeesCalculator 20 (Some true))
     <= paymentProcessingFee (etsyFeesCalculator 30 (Some true))).
Proof.
  split; [discriminate|]. split; [discriminate|].
  apply fees_nonneg_monotone; discriminate.
Defined.

(** The total of the four fees is [0.45 + 0.095 x price] without offsite
    ads and [0.45 + 0.215 x price] with them. *)
Theorem total_fees_linear (itemPrice : Q) :
  totalFees (etsyFeesCalculator itemPrice (Some true)) == 0.45 + 0.215 * itemPrice
  /\ totalFees (etsyFeesCalculator itemPrice (Some false)) == 0.45 + 0.095 * itemPrice
  /\ totalFees (etsyFeesCalculator itemPrice None) == 0.45 + 0.095 * itemPrice.
Proof.
  unfold totalFees; simpl. repeat split; ring.
Qed.

(** The two copies of the fee calculator (util.ts and dataManagement.ts)
    agree on every price and every boolean or absent flag. *)
Theorem fee_calculators_agree (itemPrice : Q) (offsiteAds : option bool) :
  etsyFeesCalculatorDM itemPrice offsiteAds = etsyFeesCalculator itemPrice offsiteAds.
Proof.
  destruct offsiteAds as [[|]|]; reflexivity.
Qed.

(** ** File names *)

Lemma endsWith_append (suffix s : string) : endsWith suffix (s ++ suffix) = true.
Proof.
  induction s as [|c s IH]; simpl.
  - destruct suffix as [|a s']; [reflexivity|].
    change (String.eqb (String a s') (String a s') || endsWith (String a s') s' = true).
    rewrite String.eqb_refl. reflexivity.
  - rewrite IH. apply orb_true_r.
Qed.

Lemma string_append_assoc (a b c : string) : (a ++ b) ++ c = a ++ (b ++ c).
Proof.
  induction a as [|x a IH]; simpl; [reflexivity|]. rewrite IH. reflexivity.
Qed.

(** Every name [generateFilename] produces ends in ".json". *)
Lemma generateFilename_json (businessName : string) (customFilename : option string)
  (timestamp : string) :
  endsWith ".json" (generateFilename businessName customFilename timestamp) = true.
Proof.
  assert (Hs : forall x, endsWith ".json" (x ++ "-" ++ timestamp ++ ".json") = true).
  { intros x. rewrite <- !string_append_assoc. apply endsWith_append. }
  unfold generateFilename.
  destruct customFilename as [f|]; [|apply Hs].
  destruct (String.eqb f ""); [apply Hs|].
  destruct (endsWith ".json" f) eqn:E; [exact E|apply endsWith_append].
Qed.

Lemma allowed_replace (s : string) : allowedChars (replaceNonAlnum s) = true.
Proof.
  induction s as [|c s IH]; [reflexivity|]. cbn [replaceNonAlnum allowedChars].
  rewrite IH, andb_true_r.
  destruct (isLowerAlnum c) eqn:E; [rewrite E; reflexivity|reflexivity].
Qed.

Lemma allowed_collapse (s : string) :
  allowedChars s = true -> allowedChars (collapseDashes s) = true.
Proof.
  induction s as [|c s IH]; [reflexivity|]. cbn [allowedChars collapseDashes].
  intros H. apply andb_true_iff in H. destruct H as [Hc Hs].
  destruct (Ascii.eqb c dash) eqn:E.
  - destruct s as [|d s'].
    + cbn [allowedChars]. rewrite E in *. rewrite Hc. reflexivity.
    + destruct (Ascii.eqb d dash); [apply IH; exact Hs|].
      cbn [allowedChars]. rewrite E in *. rewrite Hc, IH by exact Hs. reflexivity.
  - cbn [allowedChars]. rewrite E in *. rewrite Hc, IH by exact Hs. reflexivity.
Qed.

Lemma head_collapse (s : string) : startsWithDash (collapseDashes s) = startsWithDash s.
Proof.
  induction s as [|c s IH]; [reflexivity|]. cbn [collapseDashes].
  destruct (Ascii.eqb c dash) eqn:E; [|reflexivity].
  destruct s as [|d s']; [reflexivity|].
  destruct (Ascii.eqb d dash) eqn:Ed; [|reflexivity].
  rewrite IH. cbn [startsWithDash]. rewrite Ed, E. reflexivity.
Qed.

Lemma noDoubleDash_collapse (s : string) : noDoubleDash (collapseDashes s) = true.
Proof.
  induction s as [|c s IH]; [reflexivity|]. cbn [collapseDashes].
  destruct (Ascii.eqb c dash) eqn:E.
  - destruct s as [|d s'].
    + cbn [noDoubleDash startsWithDash]. rewrite andb_false_r. reflexivity.
    + destruct (Ascii.eqb d dash) eqn:Ed; [exact IH|].
      cbn [noDoubleDash]. rewrite IH, head_collapse, E. cbn [startsWithDash].
      rewrite Ed. reflexivity.
  - cbn [noDoubleDash]. rewrite IH, E. reflexivity.
Qed.

Lemma allowed_dropLeading (s : string) :
  allowedChars s = true -> allowedChars (dropLeadingDash s) = true.
Proof.
  destruct s as [|c s]; [reflexivity|]. intros H. cbn [dropLeadingDash].
  destruct (Ascii.eqb c dash) eqn:E; [|exact H].
  change ((isLowerAlnum c || Ascii.eqb c dash) && allowedChars s = true) in H.
  apply andb_true_iff in H. apply H.
Qed.

Lemma noDoubleDash_dropLeading (s : string) :
  noDoubleDash s = true ->
  noDoubleDash (dropLeadingDash s) = true /\ startsWithDash (dropLeadingDash s) = false.
Proof.
  destruct s as [|c s]; [split; reflexivity|]. intros H. cbn [dropLeadingDash].
  change (negb (Ascii.eqb c dash && startsWithDash s) && noDoubleDash s = true) in H.
  apply andb_true_iff in H. destruct H as [Hc Hs].
  destruct (Ascii.eqb c dash) eqn:E.
  - split; [exact Hs|]. destruct (startsWithDash s); [discriminate Hc|reflexivity].
  - split; [|exact E].
    change (negb (Ascii.eqb c dash && startsWithDash s) && noDoubleDash s = true).
    rewrite E, Hs. reflexivity.
Qed.

Lemma allowed_dropTrailing (s : string) :
  allowedChars s = true -> allowedChars (dropTrailingDash s) = true.
Proof.
  induction s as [|c s IH]; [reflexivity|]. intros H.
  destruct s as [|d s'].
  - cbn [dropTrailingDash]. destruct (Ascii.eqb c dash); [reflexivity|exact H].
  - change ((isLowerAlnum c || Ascii.eqb c dash)
              && allowedChars (dropTrailingDash (String d s')) = true).
    change ((isLowerAlnum c || Ascii.eqb c dash) && allowedChars (String d s') = true) in H.
    apply andb_true_iff in H. destruct H as [Hc Hs].
    rewrite Hc. apply IH. exact Hs.
Qed.

Lemma head_dropTrailing (s : string) :
  startsWithDash (dropTrailingDash s) = true -> startsWithDash s = true.
Proof.
  destruct s as [|c [|d s']]; [intro H; discriminate H| |exact (fun H => H)].
  cbn [dropTrailingDash]. intro H.
  destruct (Ascii.eqb c dash) eqn:E; [discriminate H|exact H].
Qed.

Lemma noDoubleDash_dropTrailing (s : string) :
  noDoubleDash s = true ->
  noDoubleDash (dropTrailingDash s) = true /\ endsWithDash (dropTrailingDash s) = false.
Proof.
  induction s as [|c s IH]; [split; reflexivity|]. intros H.
  destruct s as [|d s'].
  - cbn [dropTrailingDash]. destruct (Ascii.eqb c dash) eqn:E; [split; reflexivity|].
    split.
    + cbn [noDoubleDash startsWithDash]. rewrite andb_false_r. reflexivity.
    + exact E.
  - change (dropTrailingDash (String c (String d s')))
      with (String c (dropTrailingDash (String d s'))).
    change (negb (Ascii.eqb c dash && startsWithDash (String d s'))
              && noDoubleDash (String d s') = true) in H.
    apply andb_true_iff in H. destruct H as [Hc Hs].
    destruct (IH Hs) as [IH1 IH2].
    split.
    + change (negb (Ascii.eqb c dash && startsWithDash (dropTrailingDash (String d s')))
                && noDoubleDash (dropTrailingDash (String d s')) = true).
      rewrite IH1, andb_true_r.
      destruct (startsWithDash (dropTrailingDash (String d s'))) eqn:Eh;
        [|rewrite andb_false_r; reflexivity].
      apply head_dropTrailing in Eh. rewrite Eh in Hc. exact Hc.
    + remember (dropTrailingDash (String d s')) as t eqn:Et.
      destruct t as [|e t'].
      * (* the tail was a lone dash *)
        destruct s' as [|x s''].
        -- cbn [dropTrailingDash] in Et.
           destruct (Ascii.eqb d dash) eqn:Ed; [|discriminate Et].
           change (negb (Ascii.eqb c dash && Ascii.eqb d dash) = true) in Hc.
           rewrite Ed, andb_true_r in Hc. apply negb_true_iff in Hc. exact Hc.
        -- change ("" = String d (dropTrailingDash (String x s''))) in Et.
           discriminate Et.
      * exact IH2.
Qed.

(** A business name is sanitized into a name made only of [a-z], [0-9]
    and dashes, with no two consecutive dashes and no dash at either end
    (the regular-expression pipeline of [generateFilename]). *)
Theorem sanitized_name_shape (businessName : string) :
  let s := sanitizeBusinessName businessName in
  allowedChars s = true /\ noDoubleDash s = true
  /\ startsWithDash s = false /\ endsWithDash s = false.
Proof.
  unfold sanitizeBusinessName.
  set (c := collapseDashes (replaceNonAlnum (toLowerCase businessName))).
  assert (Ha : allowedChars c = true)
    by (apply allowed_collapse, allowed_replace).
  assert (Hn : noDoubleDash c = true) by apply noDoubleDash_collapse.
  destruct (noDoubleDash_dropLeading c Hn) as [Hn1 Hh1].
  destruct (noDoubleDash_dropTrailing _ Hn1) as [Hn2 He2].
  split; [apply allowed_dropTrailing, allowed_dropLeading, Ha|].
  split; [exact Hn2|]. split; [|exact He2].
  destruct (startsWithDash (dropTrailingDash (dropLeadingDash c))) eqn:E; [|reflexivity].
  apply head_dropTrailing in E. rewrite E in Hh1. exact Hh1.
Qed.

(** ** Material cost totals *)





Lemma catalog_bulkSane : forallb (fun kv => bulkSane (snd kv)) mockPriceDatabase = true.
Proof. vm_compute. reflexivity. Qed.

Lemma lookup_bulkSane (name : string) (info : PriceInfo) :
  lookupPrice name = Some info -> bulkSane info = true.
Proof.
  unfold lookupPrice.
  destruct (find _ mockPriceDatabase) as [[k i]|] eqn:E; intros H; [|discriminate H].
  injection H as <-. apply find_some in E. destruct E as [Hin _].
  pose proof catalog_bulkSane as Hc. rewrite forallb_forall in Hc.
  exact (Hc _ Hin).
Qed.

Lemma detail_bulk (m : Material) (b : BulkOption) :
  d_bulkOption (materialDetail m) = Some b ->
  1 <= bulkQuantity b /\ 1 # 100 <= savingsPerUnit b.
Proof.
  assert (Hi : exists I, bulkSane I = true /\
    d_bulkOption (materialDetail m) =
      match pi_bulkOption I with
      | Some (bq, bp) => Some (mkBulkOption bq bp (round2 (pi_pricePerUnit I - bp)))
      | None => None
      end).
  { unfold materialDetail.
    destruct (lookupPrice (m_name m)) as [i|] eqn:E;
      [pose proof (lookup_bulkSane _ _ E) as Hs|];
      (destruct (m_preferredSupplier m) as [s|];
        [destruct (String.eqb s EmptyString)|]);
      (eexists; split; [|reflexivity]); first [exact Hs | reflexivity]. }
  destruct Hi as [I [Hs ->]]. unfold bulkSane in Hs.
  destruct (pi_bulkOption I) as [[bq bp]|]; intros H; [|discriminate H].
  injection H as <-. apply andb_true_iff in Hs. destruct Hs as [H1 H2].
  apply Qle_bool_iff in H1, H2. split; assumption.
Qed.

Lemma savings_fold (ds : list MaterialCostDetail) (acc : Q) :
  (forall d b, In d ds -> d_bulkOption d = Some b ->
     1 <= bulkQuantity b /\ 1 # 100 <= savingsPerUnit b) ->
  acc <= fold_left savingsStep ds acc
  /\ (existsb bulkEligibleb ds = true -> acc + (1 # 100) <= fold_left savingsStep ds acc).
Proof.
  revert acc. induction ds as [|d ds IH]; intros acc Hds.
  - split; [apply Qle_refl|]. intros H. discriminate H.
  - assert (Hstep : acc <= savingsStep acc d
                    /\ (bulkEligibleb d = true -> acc + (1 # 100) <= savingsStep acc d)).
    { unfold savingsStep, bulkEligibleb.
      destruct (d_bulkOption d) as [b|] eqn:Eb; [|split; [apply Qle_refl|discriminate]].
      destruct (Hds d b (or_introl eq_refl) Eb) as [Hq Hsv].
      destruct (Qle_bool (bulkQuantity b) (d_quantity d)) eqn:Eq;
        [|split; [apply Qle_refl|discriminate]].
      apply Qle_bool_iff in Eq.
      assert (Hp : 1 # 100 <= savingsPerUnit b * d_quantity d) by nra.
      split; [lra|intros _; lra]. }
    destruct Hstep as [Hs1 Hs2].
    destruct (IH (savingsStep acc d)) as [IH1 IH2].
    { intros d' b' Hd'. apply Hds. right. exact Hd'. }
    simpl. split; [eapply Qle_trans; [exact Hs1|exact IH1]|].
    intros H. apply orb_true_iff in H. destruct H as [H|H].
    + eapply Qle_trans; [apply (Hs2 H)|exact IH1].
    + eapply Qle_trans; [|apply (IH2 H)]. lra.
Qed.

Lemma round2_lower (x : Q) (k : Z) : inject_Z k / 100 <= x -> inject_Z k / 100 <= round2 x.
Proof.
  intros H. unfold round2.
  assert (Hk : (k <= Math_round (x * 100))%Z).
  { rewrite <- (Math_round_Z k). apply Math_round_le.
    apply (Qmult_le_compat_r _ _ 100) in H; [|lra].
    eapply Qle_trans; [|exact H]. apply Qle_lteq. right. field. }
  unfold Qdiv. apply Qmult_le_compat_r; [|apply Qinv_le_0_compat; lra].
  rewrite <- Zle_Qle. exact Hk.
Qed.

(** The reported bulk savings are never negative, and are at least one
    cent as soon as some material qualifies for its bulk price: every bulk
    offer of the price catalog is cheaper per unit by at least a cent and
    needs at least one unit. *)
Theorem material_savings_sign (materials : list Material) :
  let r := calculateMaterialCosts materials in
  0 <= mc_potentialSavings r
  /\ (existsb bulkEligibleb (mc_materials r) = true -> 1 # 100 <= mc_potentialSavings r).
Proof.
  cbn [mc_potentialSavings mc_materials calculateMaterialCosts].
  change (fold_left _ (map materialDetail materials) 0)
    with (fold_left savingsStep (map materialDetail materials) 0).
  destruct (savings_fold (map materialDetail materials) 0) as [H1 H2].
  { intros d b Hd. apply in_map_iff in Hd. destruct Hd as [m [<- _]].
    apply detail_bulk. }
  split.
  - apply Qle_trans with (inject_Z 0 / 100); [vm_compute; discriminate|].
    apply round2_lower. eapply Qle_trans; [|exact H1]. vm_compute; discriminate.
  - intros H. apply Qle_trans with (inject_Z 1 / 100); [vm_compute; discriminate|].
    apply round2_lower. eapply Qle_trans; [|exact (H2 H)]. vm_compute; discriminate.
Qed.

(** ** Cost analysis and sales estimates *)

Lemma fold_addFixedCost_shift (l : list FixedCost) (acc : Q) :
  fold_left addFixedCost l acc == acc + fold_left addFixedCost l 0.
Proof.
  revert acc. induction l as [|c l IH]; intros acc; simpl; [ring|].
  rewrite (IH (addFixedCost acc c)), (IH (addFixedCost 0 c)).
  unfold addFixedCost. destruct (fc_frequency c); ring.
Qed.

(** The monthly fixed costs of two lists of costs put together are the sum
    of their monthly fixed costs; in particular the order in which the
    costs are listed does not matter. *)
Theorem monthly_fixed_costs_additive (l1 l2 : list FixedCost) :
  monthlyFixedCostsOf (l1 ++ l2) == monthlyFixedCostsOf l1 + monthlyFixedCostsOf l2
  /\ monthlyFixedCostsOf (l1 ++ l2) == monthlyFixedCostsOf (l2 ++ l1).
Proof.
  assert (Hadd : forall a b, monthlyFixedCostsOf (a ++ b)
                             == monthlyFixedCostsOf a + monthlyFixedCostsOf b).
  { intros a b. unfold monthlyFixedCostsOf. rewrite fold_left_app.
    apply fold_addFixedCost_shift. }
  split; [apply Hadd|]. rewrite !Hadd. ring.
Qed.

Lemma round2_mono (x y : Q) : x <= y -> round2 x <= round2 y.
Proof.
  intros H. unfold round2, Qdiv.
  apply Qmult_le_compat_r; [|apply Qinv_le_0_compat; lra].
  rewrite <- Zle_Qle. apply Math_round_le. apply Qmult_le_compat_r; [exact H|lra].
Qed.

Lemma round2_zero : round2 0 == 0.
Proof. vm_compute. reflexivity. Qed.

Lemma projection_netProfit (p vc F v : Q) :
  netProfit (projection p vc F v) = round2 (v * p - v * vc - F).
Proof. reflexivity. Qed.

(** With a positive contribution margin, every profit projection at a sales
    volume of at least the break-even units shows a non-negative net
    profit, and every projection at a volume below it (at most one unit
    less) shows a non-positive one. *)
Theorem projections_follow_break_even (fixedCosts : list FixedCost)
  (variableCosts : VariableCosts) (sellingPrice : Q) (salesVolumes : list Q)
  (Hcm : 0 < sellingPrice - variableCostPerItemOf variableCosts) :
  let r := analyzeBusinessCosts fixedCosts variableCosts sellingPrice salesVolumes in
  exists n, ca_breakEvenUnits r = Zfin n
    /\ Forall (fun pr => (inject_Z n <= salesVolume pr -> 0 <= netProfit pr)
                         /\ (salesVolume pr <= inject_Z (n - 1) -> netProfit pr <= 0))
              (ca_projections r).
Proof.
  set (vc := variableCostPerItemOf variableCosts) in *.
  set (cm := sellingPrice - vc) in *.
  set (F := monthlyFixedCostsOf fixedCosts).
  assert (Hnz : ~ cm == 0).
  { intros H0. rewrite H0 in Hcm. exact (Qlt_irrefl 0 Hcm). }
  assert (HF : F / cm * cm == F) by (field; exact Hnz).
  set (n := Math_ceil (F / cm)).
  assert (Hup : F <= inject_Z n * cm).
  { apply Qle_trans with (F / cm * cm); [rewrite HF; apply Qle_refl|].
    apply Qmult_le_compat_r; [apply Qle_ceiling|lra]. }
  assert (Hlow : inject_Z (n - 1) * cm < F).
  { apply Qlt_le_trans with (F / cm * cm); [|rewrite HF; apply Qle_refl].
    apply Qmult_lt_compat_r; [exact Hcm|]. apply Qceiling_lt. }
  exists n. split.
  - simpl. unfold ceil_div. fold vc cm F.
    destruct (Qeq_bool cm 0) eqn:E; [|reflexivity].
    apply Qeq_bool_eq in E. contradiction.
  - apply Forall_forall. intros pr Hin. simpl in Hin. fold vc F in Hin.
    apply in_map_iff in Hin. destruct Hin as [v [<- _]].
    rewrite projection_netProfit. cbn [salesVolume projection].
    assert (Hv : v * sellingPrice - v * vc == v * cm) by (unfold cm; ring).
    split; intros H.
    + rewrite <- round2_zero. apply round2_mono.
      assert (inject_Z n * cm <= v * cm) by (apply Qmult_le_compat_r; [exact H|lra]).
      lra.
    + rewrite <- round2_zero. apply round2_mono.
      assert (v * cm <= inject_Z (n - 1) * cm) by (apply Qmult_le_compat_r; [exact H|lra]).
      lra.
Qed.

Lemma projections_follow_break_even_witness :
  0 < 13 - variableCostPerItemOf (mkVariableCosts 5 2 None None None)
  /\ let r := analyzeBusinessCosts [mkFixedCost "rent" 120 monthly]
                (mkVariableCosts 5 2 None None None) 13 [10; 20; 30] in
     exists n, ca_breakEvenUnits r = Zfin n
       /\ Forall (fun pr => (inject_Z n <= salesVolume pr -> 0 <= netProfit pr)
                            /\ (salesVolume pr <= inject_Z (n - 1) -> netProfit pr <= 0))
                 (ca_projections r).
Proof.
  split; [reflexivity|].
  apply projections_follow_break_even. reflexivity.
Defined.

Lemma marketingMultiplier_linear (b : Q) : marketingMultiplier b == 1 + b * (1 # 400).
Proof. unfold marketingMultiplier. field. Qed.

Lemma scale_mono (base : Z) (m1 m2 : Q) :
  (0 <= base)%Z -> m1 <= m2 ->
  (Math_round (inject_Z base * m1) <= Math_round (inject_Z base * m2))%Z.
Proof.
  intros Hb Hm. apply Math_round_le.
  rewrite (Qmult_comm _ m1), (Qmult_comm _ m2).
  apply Qmult_le_compat_r; [exact Hm|].
  change 0 with (inject_Z 0). rewrite <- Zle_Qle. exact Hb.
Qed.

(** A larger marketing budget never lowers any scenario's estimated
    monthly, quarterly or annual sales. *)
Theorem sales_grow_with_budget (competitorPrice : Q) (isNewShop : bool) (b1 b2 : Q)
  (Hb : b1 <= b2) :
  Forall2 (fun e1 e2 => scenario e1 = scenario e2
                        /\ (monthlySales e1 <= monthlySales e2)%Z
                        /\ (quarterlySales e1 <= quarterlySales e2)%Z
                        /\ (annualSales e1 <= annualSales e2)%Z)
    (estimateSalesVolume competitorPrice isNewShop (Some b1))
    (estimateSalesVolume competitorPrice isNewShop (Some b2)).
Proof.
  assert (Hm : marketingMultiplier b1 <= marketingMultiplier b2).
  { rewrite !marketingMultiplier_linear. lra. }
  unfold estimateSalesVolume.
  set (M1 := marketingMultiplier b1) in *. set (M2 := marketingMultiplier b2) in *.
  assert (H5 := scale_mono 5 M1 M2 ltac:(lia) Hm).
  assert (H15 := scale_mono 15 M1 M2 ltac:(lia) Hm).
  assert (H30 := scale_mono 30 M1 M2 ltac:(lia) Hm).
  assert (H40 := scale_mono 40 M1 M2 ltac:(lia) Hm).
  assert (H80 := scale_mono 80 M1 M2 ltac:(lia) Hm).
  destruct isNewShop; simpl;
    (apply Forall2_cons; [|apply Forall2_cons; [|apply Forall2_cons; [|apply Forall2_nil]]]);
    simpl; (split; [reflexivity|]); lia.
Qed.

Lemma sales_grow_with_budget_witness :
  (0 <= 100)%Q
  /\ Forall2 (fun e1 e2 => scenario e1 = scenario e2
                           /\ (monthlySales e1 <= monthlySales e2)%Z
                           /\ (quarterlySales e1 <= quarterlySales e2)%Z
                           /\ (annualSales e1 <= annualSales e2)%Z)
       (estimateSalesVolume 25 true (Some 0)) (estimateSalesVolume 25 true (Some 100)).
Proof.
  split; [vm_compute; discriminate|].
  apply sales_grow_with_budget. vm_compute. discriminate.
Defined.

(** With a marketing multiplier that is not negative (a budget of at least
    -400), a new shop is never estimated to sell more than an established
    shop, scenario by scenario. *)
Theorem new_shop_sells_less (competitorPrice : Q) (marketingBudget : option Q)
  (Hbudget : forall b, marketingBudget = Some b -> -400 <= b) :
  Forall2 (fun e1 e2 => scenario e1 = scenario e2
                        /\ (monthlySales e1 <= monthlySales e2)%Z
                        /\ (annualSales e1 <= annualSales e2)%Z)
    (estimateSalesVolume competitorPrice true marketingBudget)
    (estimateSalesVolume competitorPrice false marketingBudget).
Proof.
  assert (Hm : 0 <= marketingMultiplier
                      (match marketingBudget with Some b => b | None => 0 end)).
  { apply marketingMultiplier_nonneg.
    destruct marketingBudget as [b|]; [apply Hbudget; reflexivity|discriminate]. }
  unfold estimateSalesVolume.
  set (M := marketingMultiplier _) in *.
  assert (H1 := round_scale_le 5 15 M ltac:(lia) Hm).
  assert (H2 := round_scale_le 15 40 M ltac:(lia) Hm).
  assert (H3 := round_scale_le 30 80 M ltac:(lia) Hm).
  simpl.
  apply Forall2_cons; [|apply Forall2_cons; [|apply Forall2_cons; [|apply Forall2_nil]]];
    simpl; (split; [reflexivity|]); lia.
Qed.

Lemma new_shop_sells_less_witness :
  (forall b, Some 50 = Some b -> -400 <= b)
  /\ Forall2 (fun e1 e2 => scenario e1 = scenario e2
                           /\ (monthlySales e1 <= monthlySales e2)%Z
                           /\ (annualSales e1 <= annualSales e2)%Z)
       (estimateSalesVolume 25 true (Some 50)) (estimateSalesVolume 25 false (Some 50)).
Proof.
  assert (H : forall b, Some 50 = Some b -> -400 <= b).
  { intros b Hb. injection Hb as <-. vm_compute. discriminate. }
  split; [exact H|]. apply new_shop_sells_less. exact H.
Defined.

(** ** Advertising budget split *)

(** [Math.round(x * 100) / 100] is within half a cent of [x]. *)
Lemma round2_error (x : Q) : x - (1 # 200) < round2 x /\ round2 x <= x + (1 # 200).
Proof.
  assert (Heq : round2 x == inject_Z (Qfloor (x * 100 + (1 # 2))) * (1 # 100))
    by reflexivity.
  pose proof (Qfloor_le (x * 100 + (1 # 2))) as Hle.
  pose proof (Qlt_floor (x * 100 + (1 # 2))) as Hlt.
  rewrite inject_Z_plus in Hlt.
  set (F := inject_Z (Qfloor (x * 100 + (1 # 2)))) in *.
  rewrite Heq. unfold inject_Z in Hlt. split; lra.
Qed.

Lemma alloc_sum_from_50 (p1 p2 : AdvertisingPlatform) (b : Q) (H50 : 50 <= b)
  (H1 : notEtsyAds p1 = true) (H2 : notEtsyAds p2 = true) :
  Qabs (sumQ (map ba_allocatedBudget (budgetAllocationOf [allPlatforms etsyAds; p1; p2] b))
        - b) <= 1 # 100.
Proof.
  apply Qabs_Qle_condition. unfold budgetAllocationOf.
  assert (Hn50 : Qlt_bool b 50 = false) by (apply Qlt_bool_false; exact H50).
  rewrite Hn50.
  assert (Hetsy : notEtsyAds (allPlatforms etsyAds) = false) by reflexivity.
  assert (Hfind : find notEtsyAds [allPlatforms etsyAds; p1; p2] = Some p1)
    by (cbn [find]; rewrite Hetsy, H1; reflexivity).
  assert (Hfilter : filter notEtsyAds [allPlatforms etsyAds; p1; p2] = [p1; p2])
    by (cbn [filter]; rewrite Hetsy, H1, H2; reflexivity).
  destruct (Qlt_bool b 150).
  - rewrite Hfind. cbn [map sumQ fold_right ba_allocatedBudget externalAllocation].
    destruct (round2_error (b * 0.6)). destruct (round2_error (b * 0.4)).
    split; lra.
  - rewrite Hfilter. cbn [map sumQ fold_right ba_allocatedBudget externalAllocation length].
    set (e := round2 (b * 0.4)).
    set (y := (b - e) / inject_Z (Z.of_nat 2)).
    assert (Hy : y == (b - e) * (1 # 2)) by reflexivity.
    destruct (round2_error y).
    split; lra.
Qed.

(** The budgets allocated to the platforms add up to the monthly budget,
    within one cent of rounding, for every category and budget. *)
Theorem allocation_total_matches_budget (productCategory : string) (monthlyBudget : Q) :
  Qabs (sumQ (map ba_allocatedBudget
           (ad_budgetAllocation (suggestAdvertisingPlatforms productCategory monthlyBudget)))
        - monthlyBudget) <= 1 # 100.
Proof.
  unfold suggestAdvertisingPlatforms. cbn [ad_budgetAllocation].
  destruct (Qlt_bool monthlyBudget 50) eqn:H50.
  - unfold budgetAllocationOf. rewrite H50.
    cbn [map sumQ fold_right ba_allocatedBudget].
    apply Qabs_Qle_condition. split; lra.
  - apply Qlt_bool_false in H50.
    rewrite recommended_affordable
      by (eapply Qle_trans; [|exact H50]; discriminate).
    destruct (recommended_shape productCategory) as (k1 & k2 & E & Hk1 & Hk2).
    rewrite E. cbn [map].
    apply alloc_sum_from_50; [exact H50| |];
      [destruct Hk1 as [-> | ->] | destruct Hk2 as [-> | [-> | ->]]]; reflexivity.
Qed.

(** Etsy Ads always comes first among the recommended platforms; every
    recommended platform is affordable (its minimum budget is within the
    monthly budget), except the Etsy Ads fallback when the budget is under
    one dollar; and every budget allocation goes to a recommended platform. *)
Theorem advertising_plan_consistent (productCategory : string) (monthlyBudget : Q) :
  let r := suggestAdvertisingPlatforms productCategory monthlyBudget in
  hd_error (ad_recommendedPlatforms r) = Some (allPlatforms etsyAds)
  /\ Forall (fun p => ap_minimumBudget p <= monthlyBudget \/ monthlyBudget < 1)
            (ad_recommendedPlatforms r)
  /\ Forall (fun a => In (ba_platform a) (map ap_name (ad_recommendedPlatforms r)))
            (ad_budgetAllocation r).
Proof.
  unfold suggestAdvertisingPlatforms. cbn [ad_recommendedPlatforms ad_budgetAllocation].
  destruct (recommended_shape productCategory) as (k1 & k2 & E & Hk1 & Hk2).
  rewrite E.
  destruct (Qle_bool 1 monthlyBudget) eqn:H1.
  - assert (Hf : filter (fun p => Qle_bool (ap_minimumBudget p) monthlyBudget)
                   (map allPlatforms [etsyAds; k1; k2])
                 = allPlatforms etsyAds
                   :: filter (fun p => Qle_bool (ap_minimumBudget p) monthlyBudget)
                        (map allPlatforms [k1; k2]))
      by (cbn [map filter]; change (ap_minimumBudget (allPlatforms etsyAds)) with 1;
          rewrite H1; reflexivity).
    rewrite Hf. cbv beta iota zeta.
    set (rest := filter (fun p => Qle_bool (ap_minimumBudget p) monthlyBudget)
                   (map allPlatforms [k1; k2])).
    set (R := allPlatforms etsyAds :: rest).
    split; [reflexivity|]. split.
    + apply Forall_cons.
      * left. apply Qle_bool_iff. exact H1.
      * apply Forall_forall. intros p Hp. apply filter_In in Hp.
        left. apply Qle_bool_iff. apply Hp.
    + unfold budgetAllocationOf.
      destruct (Qlt_bool monthlyBudget 50);
        [apply Forall_cons; [left; reflexivity|apply Forall_nil]|].
      destruct (Qlt_bool monthlyBudget 150).
      * apply Forall_cons; [left; reflexivity|].
        destruct (find notEtsyAds R) as [p|] eqn:Ef; [|apply Forall_nil].
        apply Forall_cons; [|apply Forall_nil].
        apply find_some in Ef. cbn [externalAllocation ba_platform].
        apply in_map. apply Ef.
      * apply Forall_cons; [left; reflexivity|].
        apply Forall_forall. intros a Ha. apply in_map_iff in Ha.
        destruct Ha as [p [<- Hp]]. apply filter_In in Hp.
        cbn [externalAllocation ba_platform]. apply in_map. apply Hp.
  - assert (Hlt : monthlyBudget < 1).
    { apply Qnot_le_lt. intros H. apply Qle_bool_iff in H. congruence. }
    assert (H5 : Qle_bool 5 monthlyBudget = false).
    { destruct (Qle_bool 5 monthlyBudget) eqn:H5; [|reflexivity].
      apply Qle_bool_iff in H5. lra. }
    assert (H10 : Qle_bool 10 monthlyBudget = false).
    { destruct (Qle_bool 10 monthlyBudget) eqn:H10; [|reflexivity].
      apply Qle_bool_iff in H10. lra. }
    assert (Hf : filter (fun p => Qle_bool (ap_minimumBudget p) monthlyBudget)
                   (map allPlatforms [etsyAds; k1; k2]) = []).
    { destruct Hk1 as [-> | ->]; destruct Hk2 as [-> | [-> | ->]];
        cbn [map filter allPlatforms ap_minimumBudget]; rewrite ?H1, ?H5, ?H10;
        reflexivity. }
    rewrite Hf. cbv beta iota zeta.
    split; [reflexivity|]. split.
    + apply Forall_cons; [right; exact Hlt|apply Forall_nil].
    + unfold budgetAllocationOf.
      assert (H50 : Qlt_bool monthlyBudget 50 = true)
        by (apply Qlt_bool_iff; lra).
      rewrite H50. apply Forall_cons; [left; reflexivity|apply Forall_nil].
Qed.

(** ** Competitor price statistics *)

Lemma In_insertAsc (x y : Q) (l : list Q) : In y (insertAsc x l) <-> x = y \/ In y l.
Proof.
  induction l as [|z l IH]; simpl; [tauto|].
  destruct (Qle_bool x z); simpl; [tauto|]. rewrite IH. tauto.
Qed.

Lemma In_sortAsc (y : Q) (l : list Q) : In y (sortAsc l) <-> In y l.
Proof.
  induction l as [|x l IH]; simpl; [tauto|]. rewrite In_insertAsc, IH. tauto.
Qed.

Lemma length_insertAsc (x : Q) (l : list Q) : length (insertAsc x l) = S (length l).
Proof.
  induction l as [|z l IH]; simpl; [reflexivity|].
  destruct (Qle_bool x z); simpl; [reflexivity|]. rewrite IH. reflexivity.
Qed.

Lemma length_sortAsc (l : list Q) : length (sortAsc l) = length l.
Proof.
  induction l as [|x l IH]; simpl; [reflexivity|]. rewrite length_insertAsc, IH. reflexivity.
Qed.

Lemma fold_Qmin_bound (l : list Q) (acc : Q) :
  fold_left Qmin l acc <= acc /\ forall y, In y l -> fold_left Qmin l acc <= y.
Proof.
  revert acc. induction l as [|x l IH]; intros acc; simpl.
  - split; [apply Qle_refl|contradiction].
  - destruct (IH (Qmin acc x)) as [H1 H2]. split.
    + eapply Qle_trans; [exact H1|apply Q.le_min_l].
    + intros y [<-|Hy]; [eapply Qle_trans; [exact H1|apply Q.le_min_r]|exact (H2 y Hy)].
Qed.

Lemma fold_Qmax_bound (l : list Q) (acc : Q) :
  acc <= fold_left Qmax l acc /\ forall y, In y l -> y <= fold_left Qmax l acc.
Proof.
  revert acc. induction l as [|x l IH]; intros acc; simpl.
  - split; [apply Qle_refl|contradiction].
  - destruct (IH (Qmax acc x)) as [H1 H2]. split.
    + eapply Qle_trans; [apply Q.le_max_l|exact H1].
    + intros y [<-|Hy]; [eapply Qle_trans; [apply Q.le_max_r|exact H1]|exact (H2 y Hy)].
Qed.

Lemma fold_Qplus_sum (l : list Q) (acc : Q) : fold_left Qplus l acc == acc + sumQ l.
Proof.
  revert acc. induction l as [|x l IH]; intros acc; simpl; [unfold sumQ; simpl; ring|].
  rewrite IH. unfold sumQ. simpl. ring.
Qed.

Lemma inject_succ (n : nat) : inject_Z (Z.of_nat (S n)) == inject_Z (Z.of_nat n) + 1.
Proof. rewrite Nat2Z.inj_succ, <- Z.add_1_r, inject_Z_plus. reflexivity. Qed.

Lemma sumQ_bounds (l : list Q) (lo hi : Q) :
  (forall y, In y l -> lo <= y <= hi) ->
  inject_Z (Z.of_nat (length l)) * lo <= sumQ l
  /\ sumQ l <= inject_Z (Z.of_nat (length l)) * hi.
Proof.
  induction l as [|x l IH]; intros H.
  { unfold sumQ. cbn [length fold_right]. change (inject_Z (Z.of_nat 0)) with 0.
    split; lra. }
  destruct IH as [IH1 IH2]; [intros y Hy; apply H; right; exact Hy|].
  destruct (H x (or_introl eq_refl)) as [Hx1 Hx2].
  unfold sumQ in *. cbn [length fold_right]. rewrite inject_succ. split; lra.
Qed.

(** For a non-empty list of competitor prices, the minimum does not exceed
    the maximum, the reported average and median both lie between the
    rounded minimum and the rounded maximum, the suggested mid price is the
    reported average, and, for non-negative prices, the suggested low, mid
    and high prices are in increasing order. *)
Theorem price_statistics_bounds (prices : list Q) (Hne : prices <> []) :
  exists st sp, priceStatistics prices = Some (st, sp)
    /\ st_min st <= st_max st
    /\ round2 (st_min st) <= st_average st <= round2 (st_max st)
    /\ round2 (st_min st) <= st_median st <= round2 (st_max st)
    /\ sp_mid sp = st_average st
    /\ (Forall (fun p => 0 <= p) prices -> sp_low sp <= sp_mid sp <= sp_high sp).
Proof.
  destruct prices as [|p0 ps]; [contradiction|]. clear Hne.
  set (lo := fold_left Qmin ps p0). set (hi := fold_left Qmax ps p0).
  assert (Hb : forall y, In y (p0 :: ps) -> lo <= y <= hi).
  { destruct (fold_Qmin_bound ps p0) as [Hl1 Hl2].
    destruct (fold_Qmax_bound ps p0) as [Hh1 Hh2].
    intros y [<-|Hy]; split; auto. }
  set (n := length (p0 :: ps)).
  assert (Hn : 0 < inject_Z (Z.of_nat n)).
  { change 0 with (inject_Z 0). rewrite <- Zlt_Qlt. unfold n. simpl. lia. }
  set (avg := fold_left Qplus (p0 :: ps) 0 / inject_Z (Z.of_nat n)).
  assert (Havg : lo <= avg <= hi).
  { destruct (sumQ_bounds (p0 :: ps) lo hi Hb) as [Hs1 Hs2].
    fold n in Hs1, Hs2. unfold avg. rewrite fold_Qplus_sum. split.
    - apply Qle_shift_div_l; [exact Hn|]. rewrite Qmult_comm. lra.
    - apply Qle_shift_div_r; [exact Hn|]. rewrite Qmult_comm. lra. }
  set (sorted := sortAsc (p0 :: ps)).
  assert (Hsorted : forall k, (k < n)%nat -> lo <= nth k sorted 0 <= hi).
  { intros k Hk. apply Hb. apply (In_sortAsc _ (p0 :: ps)). apply nth_In.
    unfold sorted. rewrite length_sortAsc. exact Hk. }
  assert (Hlen : length sorted = n) by apply length_sortAsc.
  assert (Hhalf : (n / 2 < n)%nat) by (apply Nat.div_lt; unfold n; simpl; lia).
  set (med := if Nat.even (length sorted)
              then (nth (length sorted / 2 - 1) sorted 0 + nth (length sorted / 2) sorted 0) / 2
              else nth (length sorted / 2) sorted 0).
  assert (Hmed : lo <= med <= hi).
  { unfold med. rewrite Hlen. destruct (Nat.even n).
    - destruct (Hsorted (n / 2 - 1)%nat ltac:(lia)) as [Ha1 Ha2].
      destruct (Hsorted (n / 2)%nat Hhalf) as [Hc1 Hc2].
      set (a := nth (n / 2 - 1) sorted 0) in *. set (c := nth (n / 2) sorted 0) in *.
      assert (Hac : (a + c) / 2 == (a + c) * (1 # 2)) by reflexivity.
      rewrite Hac. split; lra.
    - apply Hsorted. exact Hhalf. }
  exists (mkPriceStatistics lo hi (round2 avg) (round2 med)),
         (mkSuggestedPrice (round2 (avg * 0.85)) (round2 avg) (round2 (avg * 1.15))).
  split; [reflexivity|]. cbn [st_min st_max st_average st_median sp_low sp_mid sp_high].
  split; [destruct Havg; eapply Qle_trans; eassumption|].
  split; [destruct Havg; split; apply round2_mono; assumption|].
  split; [destruct Hmed; split; apply round2_mono; assumption|].
  split; [reflexivity|].
  intros Hnn.
  assert (H0 : 0 <= avg).
  { unfold avg. rewrite fold_Qplus_sum.
    apply Qle_shift_div_l; [exact Hn|].
    destruct (sumQ_bounds (p0 :: ps) 0 hi) as [Hs _].
    - intros y Hy. split; [|apply Hb; exact Hy].
      rewrite Forall_forall in Hnn. apply Hnn. exact Hy.
    - fold n in Hs. lra. }
  split; apply round2_mono; lra.
Qed.

Lemma price_statistics_bounds_witness :
  mockListingPrices <> []
  /\ exists st sp, priceStatistics mockListingPrices = Some (st, sp)
    /\ st_min st <= st_max st
    /\ round2 (st_min st) <= st_average st <= round2 (st_max st)
    /\ round2 (st_min st) <= st_median st <= round2 (st_max st)
    /\ sp_mid sp = st_average st
    /\ (Forall (fun p => 0 <= p) mockListingPrices -> sp_low sp <= sp_mid sp <= sp_high sp).
Proof.
  split; [discriminate|]. apply price_statistics_bounds. discriminate.
Defined.

(** ** Risks and viability of a business plan *)

Lemma risksOf_margin (input : BusinessPlanInput) (mc : MaterialCostsResult)
  (ca : CostAnalysisResult) (est : Z) (price : Q) :
  (In RiskBreakEvenAboveEstimate (risksOf input mc ca est price)
     <-> extZ_gtb (ca_breakEvenUnits ca) est = true)
  /\ (In RiskLowContributionMargin (risksOf input mc ca est price)
        <-> Qlt_bool (ca_contributionMarginPercent ca) 30 = true).
Proof.
  unfold risksOf.
  destruct (extZ_gtb (ca_breakEvenUnits ca) est);
  destruct (Qlt_bool (ca_contributionMarginPercent ca) 30);
  destruct (isNewShop input);
  destruct (Qeq_bool (or_default (laborCostPerItem input) 0) 0);
  destruct (Qlt_bool 50 (mc_totalCost mc / price * 100));
  destruct (marketingBudget input) as [b|];
  try destruct (Qeq_bool b 0 || Qlt_bool b 50);
  cbn [app In]; (split; split; [intuition discriminate|intros; intuition discriminate
                               |intuition discriminate|intros; intuition discriminate]).
Qed.

(** A business plan is rated Low exactly when its risks include the
    break-even warning or the low contribution margin warning. *)
Theorem low_viability_iff_risks (input : BusinessPlanInput) :
  exists r risks, generateBusinessPlan input = Some r
    /\ generateBusinessPlanRisks input = Some risks
    /\ (viabilityScore r = Low
        <-> In RiskBreakEvenAboveEstimate risks \/ In RiskLowContributionMargin risks).
Proof.
  destruct (generateBusinessPlan_shape input) as (r & Hr & _ & q & _ & Hv).
  exists r. eexists. split; [exact Hr|].
  split; [unfold generateBusinessPlanRisks; rewrite Hr; reflexivity|].
  destruct (risksOf_margin input (materialCosts r) (costAnalysis r)
              (estimatedMonthlySales r) (recommendedPrice r)) as [Hb Hm].
  rewrite Hb, Hm, Hv. unfold viabilityOf.
  destruct (Qlt_bool (ca_contributionMarginPercent (costAnalysis r)) 30);
  destruct (extZ_gtb (ca_breakEvenUnits (costAnalysis r)) (estimatedMonthlySales r));
  cbn [orb]; try (split; [intros _; auto|intros _; reflexivity]).
  destruct (_ && _); split; [discriminate| |discriminate|]; intros [H|H]; discriminate H.
Qed.

(** ** Business data files *)

(** Saving business data and loading the returned file name gives back the
    business name, the data and the save time; a custom file name given
    without the [.json] extension loads the same file; every other file is
    left as it was. *)
Theorem save_then_load {A : Type} (store : Store A) (businessName : string) (data : A)
  (filename : option string) (now today : string) :
  let (store', fileName) := saveBusinessData store businessName data filename now today in
  loadBusinessData store' fileName = Some (mkBusinessData businessName data now now)
  /\ (forall f, filename = Some f -> f <> "" ->
        loadBusinessData store' f = Some (mkBusinessData businessName data now now))
  /\ (forall g, loadFileName g <> fileName ->
        loadBusinessData store' g = loadBusinessData store g).
Proof.
  unfold saveBusinessData, loadBusinessData.
  set (fn := generateFilename businessName filename today).
  assert (Hfn : loadFileName fn = fn)
    by (unfold loadFileName; unfold fn; rewrite generateFilename_json; reflexivity).
  split; [|split].
  - rewrite Hfn, String.eqb_refl. reflexivity.
  - intros f Hf Hne.
    assert (Hl : loadFileName f = fn).
    { unfold fn, generateFilename, loadFileName. rewrite Hf.
      apply String.eqb_neq in Hne. rewrite Hne. reflexivity. }
    rewrite Hl, String.eqb_refl. reflexivity.
  - intros g Hg. apply String.eqb_neq in Hg. rewrite Hg. reflexivity.
Qed.

(** Two businesses whose names sanitize alike, saved on the same day
    without a custom file name, are written to the same file: loading it
    gives only the second one's data. *)
Theorem same_day_saves_collide {A : Type} (store : Store A) (n1 n2 : string) (d1 d2 : A)
  (now1 now2 today : string)
  (Hsame : sanitizeBusinessName n1 = sanitizeBusinessName n2) :
  let (store1, fn1) := saveBusinessData store n1 d1 None now1 today in
  let (store2, fn2) := saveBusinessData store1 n2 d2 None now2 today in
  fn1 = fn2 /\ loadBusinessData store2 fn1 = Some (mkBusinessData n2 d2 now2 now2).
Proof.
  unfold saveBusinessData, loadBusinessData.
  assert (Hfn : generateFilename n1 None today = generateFilename n2 None today)
    by (unfold generateFilename; rewrite Hsame; reflexivity).
  rewrite Hfn. split; [reflexivity|].
  assert (Hl : loadFileName (generateFilename n2 None today) = generateFilename n2 None today)
    by (unfold loadFileName; rewrite generateFilename_json; reflexivity).
  rewrite Hl, String.eqb_refl. reflexivity.
Qed.

Lemma same_day_saves_collide_witness :
  sanitizeBusinessName "My Shop!" = sanitizeBusinessName "my shop"
  /\ let (store1, fn1) := saveBusinessData (fun _ => None) "My Shop!" "candles" None
                            "2026-10-18T09:00:00.000Z" "2026-10-18" in
     let (store2, fn2) := saveBusinessData store1 "my shop" "soap" None
                            "2026-10-18T17:00:00.000Z" "2026-10-18" in
     fn1 = fn2 /\ loadBusinessData store2 fn1
                  = Some (mkBusinessData "my shop" "soap" "2026-10-18T17:00:00.000Z"
                            "2026-10-18T17:00:00.000Z").
Proof.
  split; [vm_compute; reflexivity|].
  apply (same_day_saves_collide (fun _ => None) "My Shop!" "my shop" "candles" "soap").
  vm_compute. reflexivity.
Defined.

(** ** The plan's price and the market research *)



(** ** Preferred suppliers *)

Lemma calculateMaterialCosts_details (materials : list Material) :
  calculateMaterialCosts materials = materialCostsOfDetails (map materialDetail materials).
Proof. reflexivity. Qed.

Lemma eraseSupplier_detail (m : Material) :
  eraseSupplier (materialDetail m) = eraseSupplier (materialDetail (clearSupplier m)).
Proof.
  unfold materialDetail, clearSupplier. cbn [m_name m_quantity m_unit m_preferredSupplier].
  destruct (lookupPrice (m_name m)); destruct (m_preferredSupplier m) as [s|];
    try destruct (String.eqb s EmptyString); reflexivity.
Qed.

Lemma fold_left_map_fun {A B C : Type} (f : A -> B -> A) (g : C -> B) (l : list C) (a : A) :
  fold_left f (map g l) a = fold_left (fun x y => f x (g y)) l a.
Proof. revert a. induction l as [|c l IH]; intros a; [reflexivity|]. apply IH. Qed.

Lemma filter_eraseSupplier (f : MaterialCostDetail -> bool) (ds : list MaterialCostDetail) :
  (forall d, f (eraseSupplier d) = f d) ->
  filter f (map eraseSupplier ds) = map eraseSupplier (filter f ds).
Proof.
  intros Hf. induction ds as [|d ds IH]; [reflexivity|].
  cbn [map filter]. rewrite Hf, IH. destruct (f d); reflexivity.
Qed.

Lemma materialCostsOfDetails_erase (ds : list MaterialCostDetail) :
  let r := materialCostsOfDetails ds in
  let r' := materialCostsOfDetails (map eraseSupplier ds) in
  mc_totalCost r' = mc_totalCost r /\ mc_potentialSavings r' = mc_potentialSavings r
  /\ mc_recommendations r' = mc_recommendations r.
Proof.
  unfold materialCostsOfDetails. cbn [mc_totalCost mc_potentialSavings mc_recommendations].
  rewrite !fold_left_map_fun.
  rewrite (filter_eraseSupplier bulkEligibleb) by reflexivity.
  rewrite (filter_eraseSupplier cheaperAlternativeb) by reflexivity.
  rewrite !length_map, map_map.
  split; [reflexivity|]. split; reflexivity.
Qed.

(** A preferred supplier only changes the supplier shown on a material's
    cost line: the cost lines otherwise, the total cost, the bulk savings
    and the recommendations are those computed without any preferred
    supplier. *)
Theorem preferred_supplier_only_renames (materials : list Material) :
  let r := calculateMaterialCosts materials in
  let r0 := calculateMaterialCosts (map clearSupplier materials) in
  map eraseSupplier (mc_materials r) = map eraseSupplier (mc_materials r0)
  /\ mc_totalCost r = mc_totalCost r0
  /\ mc_potentialSavings r = mc_potentialSavings r0
  /\ mc_recommendations r = mc_recommendations r0.
Proof.
  assert (Hm : map eraseSupplier (map materialDetail materials)
               = map eraseSupplier (map materialDetail (map clearSupplier materials))).
  { rewrite !map_map. apply map_ext. apply eraseSupplier_detail. }
  rewrite !calculateMaterialCosts_details.
  destruct (materialCostsOfDetails_erase (map materialDetail materials)) as (H1 & H2 & H3).
  destruct (materialCostsOfDetails_erase (map materialDetail (map clearSupplier materials)))
    as (H1' & H2' & H3').
  rewrite Hm in H1, H2, H3.
  split; [exact Hm|].
  split; [rewrite <- H1, H1'; reflexivity|].
  split; [rewrite <- H2, H2'; reflexivity|].
  rewrite <- H3, H3'. reflexivity.
Qed.
